(** * GitHub Enterprise SCIM user creation script

    A shallow embedding of [github_scim_user_management.py]: the values the
    script handles (CSV cells, JSON documents), its string helpers, the CSV
    post-processing of [read_csv_file], the field mapping of
    [format_user_for_scim], the SCIM client and the read-check-create loop of
    [process_users] and [main], followed by the properties of the
    specification.

    Python dictionaries are finite maps with string keys, HTTP traffic and
    logging are an explicit state that every effectful function threads, and
    exceptions are the [Raise] outcome of a computation. *)

From Stdlib Require Import ZArith Ascii String.
From stdpp Require Import gmap strings list fin_maps.

Local Open Scope string_scope.

(** ** Values *)

(** Python values as the script meets them: CSV cells, the dictionaries it
    builds and the JSON documents the server answers with.  [VInt] stands for
    a JSON number; the script only ever tests a number for truth. *)
#[warnings="-register-all"] Inductive value :=
| VNone
| VBool (b : bool)
| VInt (n : Z)
| VStr (s : string)
| VList (l : list value)
| VDict (d : gmap string value).

Abbreviation dict := (gmap string value).

(** [bool(v)]: what [if v:] and [not v] test. *)
Definition truthy (v : value) : bool :=
  match v with
  | VNone => false
  | VBool b => b
  | VInt n => negb (n =? 0)%Z
  | VStr s => match s with EmptyString => false | String _ _ => true end
  | VList l => match l with [] => false | _ :: _ => true end
  | VDict d => negb (Nat.eqb (size d) 0)
  end.

(** [d.get(k)]: the value, or [None]. *)
Definition dict_get (d : dict) (k : string) : value :=
  default VNone (d !! k).

(** [d.get(k, dflt)]. *)
Definition dict_get_default (d : dict) (k : string) (dflt : value) : value :=
  default dflt (d !! k).

(** Exceptions the script can meet; all of them derive from [Exception]. *)
Inductive exn :=
| FileNotFoundError (path : string)
| OSError (msg : string)
| UnicodeDecodeError
| CsvError (msg : string)
| RequestException (msg : string)
| HTTPError (status : Z)
| JSONDecodeError
| AttributeError
| KeyError
| IndexError
| TypeError.

Inductive outcome (A : Type) :=
| Return (a : A)
| Raise (e : exn).
Arguments Return {A} a.
Arguments Raise {A} e.

(** ** Strings *)

Module Str.

(** Characters are code points; an [ascii] holds those below 256.  These
    are the ones [str.strip()] removes in that range. *)
Definition isspace (c : ascii) : bool :=
  let n := nat_of_ascii c in
  (((9 <=? n) && (n <=? 13)) || ((28 <=? n) && (n <=? 32))
   || (n =? 133) || (n =? 160))%nat.

Fixpoint lstrip (p : ascii -> bool) (s : string) : string :=
  match s with
  | EmptyString => EmptyString
  | String c s' => if p c then lstrip p s' else s
  end.

Fixpoint rstrip (p : ascii -> bool) (s : string) : string :=
  match s with
  | EmptyString => EmptyString
  | String c s' =>
      match rstrip p s' with
      | EmptyString => if p c then EmptyString else String c EmptyString
      | r => String c r
      end
  end.

(** [s.strip()] *)
Definition strip (s : string) : string := rstrip isspace (lstrip isspace s).

(** [s.rstrip('/')] *)
Definition rstrip_slash (s : string) : string :=
  rstrip (fun c => Ascii.eqb c "/"%char) s.

(** [s.split(sep)] for a one-character separator: the pieces between the
    separators, empty pieces included, never an empty list. *)
Fixpoint split (sep : ascii) (s : string) : list string :=
  match s with
  | EmptyString => [EmptyString]
  | String c s' =>
      if Ascii.eqb c sep then EmptyString :: split sep s'
      else match split sep s' with
           | [] => [String c EmptyString]
           | piece :: pieces => String c piece :: pieces
           end
  end.

(** The double quote character of the lookup filter. *)
Definition dquote : string := String (ascii_of_nat 34) EmptyString.

End Str.

(** ** Reading the CSV file *)

(** A cell of a [csv.DictReader] row: a string, or [None] where the line is
    shorter than the header.  The cells of a line longer than the header,
    which the reader collects under the key [None], are never read by the
    script and are left out. *)
Abbreviation cell := (option string).
Abbreviation raw_row := (gmap string (option string)).

Definition cell_value (c : cell) : value :=
  match c with
  | Some s => VStr s
  | None => VNone
  end.

(** [{"value": email, "type": "work", "primary": True}] *)
Definition email_entry (email : string) : value :=
  VDict {[ "value" := VStr email; "type" := VStr "work";
           "primary" := VBool true ]}.

(** [if 'emails' in row and row['emails']: ...] *)
Definition convert_emails (row : dict) : outcome dict :=
  match row !! "emails" with
  | Some v =>
      if truthy v then
        match v with
        | VStr s =>
            let email_list := Str.strip <$> Str.split ";" s in
            Return (<["emails" := VList (email_entry <$> email_list)]> row)
        | _ => Raise AttributeError
        end
      else Return row
  | None => Return row
  end.

(** [if 'roles' in row and row['roles']: ...] *)
Definition convert_roles (row : dict) : outcome dict :=
  match row !! "roles" with
  | Some v =>
      if truthy v then
        match v with
        | VStr s =>
            let role_list := Str.strip <$> Str.split ";" s in
            match role_list with
            | role :: _ => Return (<["roles" := VStr role]> row)
            | [] => Raise IndexError
            end
        | _ => Raise AttributeError
        end
      else Return row
  | None => Return row
  end.

(** The body of [for row in reader]. *)
Definition convert_row (r : raw_row) : outcome dict :=
  match convert_emails (cell_value <$> r) with
  | Return row => convert_roles row
  | Raise e => Raise e
  end.

(** The loop of [read_csv_file]: [users.append(row)] for every row. *)
Fixpoint convert_rows (reader : list raw_row) : outcome (list dict) :=
  match reader with
  | [] => Return []
  | r :: reader' =>
      match convert_row r with
      | Return row =>
          match convert_rows reader' with
          | Return users => Return (row :: users)
          | Raise e => Raise e
          end
      | Raise e => Raise e
      end
  end.

(** ** Field mapping *)

Definition scim_user_schema : string :=
  "urn:ietf:params:scim:schemas:core:2.0:User".

Definition format_user_for_scim (user_data : dict) : dict :=
  {[ "schemas" := VList [VStr scim_user_schema];
     "externalId" := dict_get_default user_data "userName" (VStr EmptyString);
     "active" := VBool true;
     "userName" := dict_get_default user_data "userName" (VStr EmptyString);
     "displayName" :=
       dict_get_default user_data "displayName" (VStr EmptyString);
     "emails" := dict_get_default user_data "emails" (VList []);
     "roles" :=
       VList [VDict {[ "value" :=
                         dict_get_default user_data "roles" (VStr "user");
                       "primary" := VBool true ]}] ]}.

(** ** The outside world *)

(** What [requests.request] is called with. *)
Record request := Request {
  method : string;
  url : string;
  headers : gmap string string;
  json : option dict
}.

(** What [requests.request] comes back with: an exception of the transport,
    with the status code and the text of the response it carries, if it
    carries one (as the exception for too many redirects does), or a
    response with its status code and its body ([None] when the body is not
    a JSON document). *)
Inductive http_result :=
| NoResponse (msg : string) (response : option (Z * string))
| Response (status_code : Z) (body : option value).

Inductive level := INFO | WARNING | ERROR.

(** The records the script logs, one constructor per logging call. *)
Inductive message :=
| RequestFailed (e : exn)
| ResponseStatus (status_code : Z)
| ResponseBody (text : string)
| CreatingUser (username : value)
| UserData (user_data : dict)
| ScimEndpoint (endpoint : string)
| ErrorReadingCsv (e : exn)
| SkippingMissingUserName
| AlreadyExists (username : value)
| CreatedUser (username : value) (id : value)
| ErrorProcessingUser (username : value) (e : exn)
| NoUsersFound
| SuccessfullyCompleted
| AnErrorOccurred (e : exn).

(** What is at a path: nothing, something that cannot be read as CSV, or the
    rows [csv.DictReader] yields. *)
Inductive file :=
| Missing
| Unreadable (e : exn)
| Csv (reader : list raw_row).

(** How [main] ends: it returns, or [sys.exit(code)]. *)
Inductive exit :=
| Returned
| SysExit (code : Z).

Record GithubScimClient := Client {
  base_url : string;
  client_headers : gmap string string;
  scim_endpoint : string
}.

(** [GithubScimClient.__init__] *)
Definition new_client (url access_token : string) : GithubScimClient :=
  let base := Str.rstrip_slash url in
  {| base_url := base;
     client_headers :=
       {[ "Authorization" := "Bearer " ++ access_token;
          "Content-Type" := "application/scim+json";
          "Accept" := "application/scim+json" ]};
     scim_endpoint :=
       base ++ "/scim/v2/enterprises/xfusion-digital-technologies/Users" |}.

Declare Scope prog_scope.
Delimit Scope prog_scope with prog.

Section Program.

(** The SCIM server, as a state machine answering one request at a time. *)
Context {server : Type}.
Variable serve : request -> server -> http_result * server.

(** The file system the script reads from. *)
Variable disk : string -> file.

(** [str(v)] for a value that is not a string, as an f-string renders it. *)
Variable repr : value -> string.

Record world := World {
  remote : server;
  sent : list request;
  logged : list (level * message)
}.

(** Computations that send requests, log, and may raise. *)
Definition M (A : Type) : Type := world -> outcome A * world.

Definition ret {A} (a : A) : M A := fun w => (Return a, w).

Definition raise {A} (e : exn) : M A := fun w => (Raise e, w).

Definition bind {A B} (m : M A) (k : A -> M B) : M B :=
  fun w =>
    match m w with
    | (Return a, w') => k a w'
    | (Raise e, w') => (Raise e, w')
    end.

(** [try: m  except Exception as e: handler e] *)
Definition try_except {A} (m : M A) (handler : exn -> M A) : M A :=
  fun w =>
    match m w with
    | (Return a, w') => (Return a, w')
    | (Raise e, w') => handler e w'
    end.

Notation "x <- m ;; k" := (bind m (fun x => k))
  (at level 100, m at next level, k at level 200, right associativity)
  : prog_scope.
Notation "m ;; k" := (bind m (fun _ => k))
  (at level 100, k at level 200, right associativity) : prog_scope.
Local Open Scope prog_scope.

(** [logger.info], [logger.warning], [logger.error] *)
Definition log (l : level) (m : message) : M unit :=
  fun w => (Return tt,
            {| remote := remote w; sent := sent w;
               logged := logged w ++ [(l, m)] |}).

(** [requests.request(method=..., url=..., headers=..., json=...)] *)
Definition send (req : request) : M http_result :=
  fun w =>
    let (r, remote') := serve req (remote w) in
    (Return r,
     {| remote := remote'; sent := sent w ++ [req]; logged := logged w |}).

(** [f"{v}"] *)
Definition fstr (v : value) : string :=
  match v with
  | VStr s => s
  | _ => repr v
  end.

(** *** The client *)

(** [if hasattr(e, 'response') and e.response: ...]: the two further
    records of the handler.  A response is true in a condition when its
    status is not an error, that is, not from 400 to 599. *)
Definition log_response (response : option (Z * string)) : M unit :=
  match response with
  | Some (status_code, text) =>
      if ((400 <=? status_code) && (status_code <? 600))%Z then ret tt
      else
        log ERROR (ResponseStatus status_code) ;;
        log ERROR (ResponseBody text)
  | None => ret tt
  end.

(** [_make_request]: [raise_for_status] raises on a status from 400 to
    599, a 204 gives the empty dictionary, anything else the decoded body.
    Every exception of the [try] block is logged and raised again.  The
    exception of [raise_for_status] carries a response with an error status,
    which is false in a condition, and the exception of the decoder carries
    none, so neither writes the two further records. *)
Definition _make_request (self : GithubScimClient) (method url : string)
    (data : option dict) : M value :=
  response <- send {| method := method; url := url;
                      headers := client_headers self; json := data |} ;;
  match response with
  | NoResponse msg carried =>
      log ERROR (RequestFailed (RequestException msg)) ;;
      log_response carried ;;
      raise (RequestException msg)
  | Response status_code body =>
      if ((400 <=? status_code) && (status_code <? 600))%Z then
        log ERROR (RequestFailed (HTTPError status_code)) ;;
        raise (HTTPError status_code)
      else if (status_code =? 204)%Z then ret (VDict ∅)
      else match body with
           | Some v => ret v
           | None =>
               log ERROR (RequestFailed JSONDecodeError) ;;
               raise JSONDecodeError
           end
  end.

(** [list_users]: [response.get("Resources", [])] *)
Definition list_users (self : GithubScimClient) (filter_str : option string)
    : M value :=
  let url :=
    match filter_str with
    | Some (String _ _ as f) => scim_endpoint self ++ "?filter=" ++ f
    | _ => scim_endpoint self
    end in
  response <- _make_request self "GET" url None ;;
  match response with
  | VDict d => ret (dict_get_default d "Resources" (VList []))
  | _ => raise AttributeError
  end.

(** [users[0]] *)
Definition first_item (users : value) : M value :=
  match users with
  | VList (user :: _) => ret user
  | VList [] => raise IndexError
  | VStr (String c _) => ret (VStr (String c EmptyString))
  | VStr EmptyString => raise IndexError
  | VDict _ => raise KeyError
  | VNone | VBool _ | VInt _ => raise TypeError
  end.

(** [get_user]: [users[0] if users else None] *)
Definition get_user (self : GithubScimClient) (username : value) : M value :=
  users <- list_users self
             (Some ("userName eq " ++ Str.dquote ++ fstr username
                    ++ Str.dquote)) ;;
  if truthy users then first_item users else ret VNone.

Definition get_user_by_id (self : GithubScimClient) (user_id : string)
    : M value :=
  _make_request self "GET" (scim_endpoint self ++ "/" ++ user_id) None.

Definition create_user (self : GithubScimClient) (user_data : dict)
    : M value :=
  match user_data !! "userName" with
  | None => raise KeyError
  | Some username =>
      log INFO (CreatingUser username) ;;
      log INFO (UserData user_data) ;;
      log INFO (ScimEndpoint (scim_endpoint self)) ;;
      _make_request self "POST" (scim_endpoint self) (Some user_data)
  end.

(** *** The script *)

Definition read_csv_file (filepath : string) : M (list dict) :=
  match disk filepath with
  | Missing => raise (FileNotFoundError filepath)
  | Unreadable e => log ERROR (ErrorReadingCsv e) ;; raise e
  | Csv reader =>
      match convert_rows reader with
      | Return users => ret users
      | Raise e => log ERROR (ErrorReadingCsv e) ;; raise e
      end
  end.

(** [created_user.get('id')] *)
Definition get_id (created_user : value) : M value :=
  match created_user with
  | VDict d => ret (dict_get d "id")
  | _ => raise AttributeError
  end.

(** The body of the loop of [process_users] for one row. *)
Definition process_user (client : GithubScimClient) (user_data : dict)
    : M unit :=
  let username := dict_get user_data "userName" in
  if negb (truthy username) then
    log WARNING SkippingMissingUserName
  else
    try_except
      (existing_user <- get_user client username ;;
       if truthy existing_user then
         log INFO (AlreadyExists username)
       else
         let scim_user := format_user_for_scim user_data in
         created_user <- create_user client scim_user ;;
         id <- get_id created_user ;;
         log INFO (CreatedUser username id))
      (fun e => log ERROR (ErrorProcessingUser username e)).

Fixpoint process_users (client : GithubScimClient) (users : list dict)
    : M unit :=
  match users with
  | [] => ret tt
  | user_data :: users' =>
      process_user client user_data ;; process_users client users'
  end.

Definition main (csv url token : string) : M exit :=
  try_except
    (users <- read_csv_file csv ;;
     match users with
     | [] => log WARNING NoUsersFound ;; ret Returned
     | _ :: _ =>
         let client := new_client url token in
         process_users client users ;;
         log INFO SuccessfullyCompleted ;;
         ret Returned
     end)
    (fun e => log ERROR (AnErrorOccurred e) ;; ret (SysExit 1)).

End Program.

(** ** Servers and files to run the script against *)

Module Mock.

Definition ghe : GithubScimClient :=
  new_client "https://ghe.example/" "secret".

Definition lookup_url (username : string) : string :=
  scim_endpoint ghe ++ "?filter=userName eq " ++ Str.dquote ++ username
  ++ Str.dquote.

Definition resource (username : string) : value :=
  VDict {[ "id" := VStr ("id-" ++ username); "userName" := VStr username ]}.

(** A directory that holds user names: a lookup lists the held users the
    filter names, a create adds the user. *)
Definition directory (req : request) (held : list string)
    : http_result * list string :=
  if String.eqb (method req) "GET" then
    (Response 200
       (Some (VDict {[ "Resources" :=
                VList (resource <$>
                       filter (fun u => lookup_url u = url req) held) ]})),
     held)
  else if String.eqb (method req) "POST" then
    match json req with
    | Some d =>
        match d !! "userName" with
        | Some (VStr u) =>
            (Response 201 (Some (resource u)), (held ++ [u])%list)
        | _ => (Response 400 None, held)
        end
    | None => (Response 400 None, held)
    end
  else (Response 405 None, held).

(** A server that cannot be reached. *)
Definition unreachable (req : request) (s : unit) : http_result * unit :=
  (NoResponse "connection refused" None, s).

(** A server that finds nobody and refuses every create. *)
Definition read_only (req : request) (s : unit) : http_result * unit :=
  if String.eqb (method req) "GET" then
    (Response 200 (Some (VDict {[ "Resources" := VList [] ]})), s)
  else (Response 403 None, s).

Definition no_repr (v : value) : string := "?".

Definition start {server : Type} (s : server) : @world server :=
  {| remote := s; sent := []; logged := [] |}.

Definition alice : raw_row :=
  {[ "userName" := Some "alice"; "displayName" := Some "Alice A";
     "emails" := Some "alice@example.com; a@example.org";
     "roles" := Some "enterprise_owner; user" ]}.

Definition bob : raw_row :=
  {[ "userName" := Some "bob"; "displayName" := Some "Bob B";
     "emails" := Some "bob@example.com"; "roles" := None ]}.

Definition nameless : raw_row :=
  {[ "userName" := Some EmptyString; "displayName" := Some "Nobody" ]}.

(** users.csv lists alice and bob; twice.csv lists alice on two lines. *)
Definition disk (path : string) : file :=
  if String.eqb path "users.csv" then Csv [alice; bob]
  else if String.eqb path "twice.csv" then Csv [alice; alice]
  else Missing.

(** The rows of the two files as [read_csv_file] returns them. *)
Definition converted (r : raw_row) : dict :=
  match convert_row r with
  | Return row => row
  | Raise _ => cell_value <$> r
  end.

Definition alice_user : dict := converted alice.
Definition bob_user : dict := converted bob.
Definition nameless_user : dict := converted nameless.

Definition run_main {server : Type}
    (serve : request -> server -> http_result * server) (s : server)
    (csv : string) : outcome exit * @world server :=
  main serve disk no_repr csv "https://ghe.example/" "secret" (start s).

End Mock.

(** ** Vocabulary of the properties *)

(** The request [get_user] sends for a user name. *)
Definition lookup_request (repr : value -> string) (self : GithubScimClient)
    (username : value) : request :=
  {| method := "GET";
     url := scim_endpoint self ++ "?filter=" ++ "userName eq " ++ Str.dquote
            ++ fstr repr username ++ Str.dquote;
     headers := client_headers self;
     json := None |}.

(** The request [create_user] sends for a provisioning record. *)
Definition create_request (self : GithubScimClient) (user_data : dict)
    : request :=
  {| method := "POST"; url := scim_endpoint self;
     headers := client_headers self; json := Some user_data |}.

Definition reads_or_creates (req : request) : Prop :=
  method req = "GET" \/ method req = "POST".

(** A status that [_make_request] answers with the decoded body. *)
Definition has_body (status_code : Z) : Prop :=
  ((400 <=? status_code) && (status_code <? 600) = false
   /\ status_code <> 204)%Z.

(** The user names of a batch, before and after [read_csv_file]. *)
Definition usernames (users : list dict) : list value :=
  (fun user_data => dict_get user_data "userName") <$> users.

Definition csv_usernames (reader : list raw_row) : list value :=
  (fun r => default VNone (cell_value <$> r !! "userName")) <$> reader.

(** A computation whose requests all satisfy [P]. *)
Definition sends_only {server A : Type} (P : request -> Prop)
    (m : @M server A) : Prop :=
  forall w, exists new, sent (m w).2 = (sent w ++ new)%list /\ Forall P new.

(** The world after one more log record. *)
Definition with_log {server : Type} (w : @world server) (l : level)
    (m : message) : @world server :=
  {| remote := remote w; sent := sent w;
     logged := (logged w ++ [(l, m)])%list |}.

(** An entry of the [emails] list as [read_csv_file] writes it. *)
Definition primary_work_email (v : value) : Prop :=
  exists address,
    v = VDict {[ "value" := VStr address; "type" := VStr "work";
                 "primary" := VBool true ]}.

(** How often a character occurs in a string. *)
Fixpoint count_char (c : ascii) (s : string) : nat :=
  match s with
  | EmptyString => 0
  | String c' s' =>
      if Ascii.eqb c' c then S (count_char c s') else count_char c s'
  end.

(** [sep.join(pieces)] *)
Fixpoint join (sep : string) (pieces : list string) : string :=
  match pieces with
  | [] => EmptyString
  | [piece] => piece
  | piece :: (_ :: _) as pieces' => piece ++ sep ++ join sep pieces'
  end.

(** A request that goes to the Users endpoint of the client, or below it,
    with the headers of the client. *)
Definition addressed_to (self : GithubScimClient) (req : request) : Prop :=
  headers req = client_headers self
  /\ exists rest, url req = scim_endpoint self ++ rest.

(** The requests one row of a batch may cause: none for a row without a
    userName, else the lookup, alone or followed by the create. *)
Definition row_requests (repr : value -> string) (self : GithubScimClient)
    (user_data : dict) (requests : list request) : Prop :=
  let username := dict_get user_data "userName" in
  if truthy username then
    requests = [lookup_request repr self username]
    \/ requests = [lookup_request repr self username;
                   create_request self (format_user_for_scim user_data)]
  else requests = [].

(** A file system for the error paths: one file that cannot be decoded, one
    that has a header line only, one with a single short line. *)
Definition sample_disk (path : string) : file :=
  if String.eqb path "latin1.csv" then Unreadable UnicodeDecodeError
  else if String.eqb path "header.csv" then Csv []
  else if String.eqb path "short.csv" then
    Csv [{[ "userName" := Some "dave"; "emails" := Some EmptyString;
            "roles" := None ]}]
  else Missing.

(** A server behind which every request is redirected without end: the
    transport gives up with the last redirect as the response of its
    exception. *)
Definition redirecting (req : request) (s : unit) : http_result * unit :=
  (NoResponse "Exceeded 30 redirects." (Some (302%Z, "Found")), s).

(** A server that answers every request with a JSON array. *)
Definition array_server (req : request) (s : unit) : http_result * unit :=
  (Response 200 (Some (VList [])), s).

(** ** Properties of the string helpers and of the CSV conversion *)

Example split_two_roles :
  Str.split ";" "enterprise_owner; user" = ["enterprise_owner"; " user"].
Proof. reflexivity. Qed.

Example split_empty_pieces :
  Str.split ";" ";a;" = [EmptyString; "a"; EmptyString].
Proof. reflexivity. Qed.

Example strip_both_ends : Str.strip "  a@example.org " = "a@example.org".
Proof. reflexivity. Qed.

Example rstrip_slashes :
  Str.rstrip_slash "https://ghe.example//" = "https://ghe.example".
Proof. reflexivity. Qed.

Example lookup_url_of_alice :
  url (lookup_request Mock.no_repr Mock.ghe (VStr "alice")) =
  "https://ghe.example/scim/v2/enterprises/xfusion-digital-technologies/Users"
  ++ "?filter=userName eq " ++ Str.dquote ++ "alice" ++ Str.dquote.
Proof. reflexivity. Qed.

Lemma split_cons (sep : ascii) (s : string) :
  exists piece pieces, Str.split sep s = piece :: pieces.
Proof.
  induction s as [|c s [p [ps IH]]]; simpl; [by eauto|].
  destruct (Ascii.eqb c sep); [by eauto|].
  rewrite IH. by eauto.
Qed.

Lemma split_pieces_without (sep : ascii) (s : string) :
  Forall (fun piece => count_char sep piece = 0) (Str.split sep s).
Proof.
  induction s as [|c s IH]; cbn [Str.split]; [by repeat constructor|].
  destruct (Ascii.eqb c sep) eqn:E; [by constructor|].
  destruct (Str.split sep s) as [|piece pieces].
  - repeat constructor. cbn [count_char]. by rewrite E.
  - apply Forall_cons in IH as [Hpiece Hpieces]. constructor; [|done].
    cbn [count_char]. by rewrite E.
Qed.

(** Joining the pieces with the separator gives the string back. *)
Lemma split_join (sep : ascii) (s : string) :
  join (String sep EmptyString) (Str.split sep s) = s.
Proof.
  induction s as [|c s IH]; [done|]. cbn [Str.split].
  destruct (Ascii.eqb_spec c sep) as [->|Hc].
  - destruct (split_cons sep s) as (piece & pieces & Hsplit).
    rewrite Hsplit in *.
    change (join (String sep EmptyString)
              (EmptyString :: piece :: pieces))
      with (String sep (join (String sep EmptyString) (piece :: pieces))).
    by rewrite IH.
  - destruct (Str.split sep s) as [|piece [|piece' pieces]].
    + cbn [join] in *. by rewrite <- IH.
    + cbn [join] in *. by rewrite IH.
    + change (join (String sep EmptyString)
                (String c piece :: piece' :: pieces))
        with (String c (join (String sep EmptyString)
                          (piece :: piece' :: pieces))).
      by rewrite IH.
Qed.

Lemma truthy_cell (c : cell) :
  truthy (cell_value c) = true -> exists a s, c = Some (String a s).
Proof. destruct c as [[|a s]|]; simpl; intros; by eauto. Qed.

Lemma convert_emails_cells (r : raw_row) :
  convert_emails (cell_value <$> r) =
  Return
    match r !! "emails" with
    | Some (Some (String a s)) =>
        <["emails" :=
            VList (email_entry <$>
                   (Str.strip <$> Str.split ";" (String a s)))]>
          (cell_value <$> r)
    | _ => cell_value <$> r
    end.
Proof.
  unfold convert_emails. rewrite lookup_fmap.
  destruct (r !! "emails") as [[[|a s]|]|]; reflexivity.
Qed.

Lemma convert_roles_string (row : dict) (a : ascii) (s : string) :
  row !! "roles" = Some (VStr (String a s)) ->
  exists first others,
    Str.split ";" (String a s) = first :: others
    /\ convert_roles row = Return (<["roles" := VStr (Str.strip first)]> row).
Proof.
  intros Hrow. unfold convert_roles. rewrite Hrow. cbn [truthy].
  destruct (split_cons ";" (String a s)) as [first [others Hsplit]].
  exists first, others. rewrite Hsplit. by split.
Qed.

Lemma convert_roles_falsy (row : dict) :
  (forall v, row !! "roles" = Some v -> truthy v = false) ->
  convert_roles row = Return row.
Proof.
  intros Hrow. unfold convert_roles.
  destruct (row !! "roles") as [v|] eqn:E; [|done]. by rewrite (Hrow v).
Qed.

Lemma convert_roles_other (row row' : dict) (k : string) :
  convert_roles row = Return row' -> k <> "roles" -> row' !! k = row !! k.
Proof.
  unfold convert_roles. intros H Hk.
  destruct (row !! "roles") as [v|]; [|by simplify_eq].
  destruct (truthy v); [|by simplify_eq].
  destruct v; try done.
  destruct (Str.strip <$> Str.split ";" s); [done|].
  injection H as <-. by rewrite lookup_insert_ne.
Qed.

(** The conversion of a row never raises: a cell is a string or [None]. *)
Lemma convert_row_total (r : raw_row) :
  exists row, convert_row r = Return row.
Proof.
  unfold convert_row. rewrite convert_emails_cells.
  set (row := match r !! "emails" with
              | Some (Some (String _ _)) => _ | _ => _ end).
  assert (Hroles : row !! "roles" = cell_value <$> r !! "roles").
  { subst row. destruct (r !! "emails") as [[[|a s]|]|];
      rewrite ?lookup_insert_ne by done; apply lookup_fmap. }
  destruct (r !! "roles") as [[[|a s]|]|] eqn:E; simpl in Hroles.
  - exists row. apply convert_roles_falsy. intros v Hv. by simplify_eq.
  - destruct (convert_roles_string row a s Hroles) as (f & o & _ & H).
    by eauto.
  - exists row. apply convert_roles_falsy. intros v Hv. by simplify_eq.
  - exists row. apply convert_roles_falsy. intros v Hv. by simplify_eq.
Qed.

Lemma convert_rows_total (reader : list raw_row) :
  exists users, convert_rows reader = Return users.
Proof.
  induction reader as [|r reader [users IH]]; simpl; [by eauto|].
  destruct (convert_row_total r) as [row ->]. rewrite IH. by eauto.
Qed.

(** Row [i] of the result is the conversion of row [i] of the file. *)
Lemma convert_rows_lookup (reader : list raw_row) (users : list dict) :
  convert_rows reader = Return users ->
  forall i r, reader !! i = Some r ->
  exists row, users !! i = Some row /\ convert_row r = Return row.
Proof.
  revert users. induction reader as [|r0 reader IH]; intros users H i r Hi.
  - by rewrite lookup_nil in Hi.
  - simpl in H. destruct (convert_row r0) as [row0|] eqn:E0; [|done].
    destruct (convert_rows reader) as [users'|] eqn:E; [|done].
    injection H as <-. destruct i as [|i]; simpl in *.
    + injection Hi as <-. by eauto.
    + by apply (IH users').
Qed.

(** The conversion leaves every cell but [emails] and [roles] as it is. *)
Lemma convert_row_other (r : raw_row) (row : dict) (k : string) :
  convert_row r = Return row -> k <> "emails" -> k <> "roles" ->
  row !! k = cell_value <$> r !! k.
Proof.
  unfold convert_row. rewrite convert_emails_cells.
  set (row1 := match r !! "emails" with
               | Some (Some (String _ _)) => _ | _ => _ end).
  intros H Hemails Hroles.
  assert (H1 : row1 !! k = cell_value <$> r !! k).
  { subst row1. destruct (r !! "emails") as [[[|a s]|]|];
      rewrite ?lookup_insert_ne by done; apply lookup_fmap. }
  by rewrite (convert_roles_other row1 row k H).
Qed.

Section CsvFile.

Context {server : Type}.
Variable disk : string -> file.

(** A file that [csv.DictReader] can read is read without an error and
    without a log record, row by row. *)
Lemma read_csv_file_rows (filepath : string) (reader : list raw_row)
    (w : @world server) :
  disk filepath = Csv reader ->
  exists users,
    read_csv_file disk filepath w = (Return users, w)
    /\ convert_rows reader = Return users.
Proof.
  intros Hfile. destruct (convert_rows_total reader) as [users Hrows].
  exists users. unfold read_csv_file. by rewrite Hfile, Hrows.
Qed.

Lemma usernames_converted (reader : list raw_row) (users : list dict) :
  convert_rows reader = Return users ->
  usernames users = csv_usernames reader.
Proof.
  revert users. induction reader as [|r reader IH]; intros users H.
  - by injection H as <-.
  - simpl in H. destruct (convert_row r) as [row|] eqn:Er; [|done].
    destruct (convert_rows reader) as [users'|] eqn:E; [|done].
    injection H as <-. unfold usernames, csv_usernames in *. simpl.
    f_equal; [|by apply IH].
    unfold dict_get. by rewrite (convert_row_other r row).
Qed.

(** C3, as the code has it: [read_csv_file] neither checks nor removes
    repeated user names.  It returns one row for every row of the file, in
    the order of the file and with the userName cell unchanged, so the user
    names of the batch are pairwise different exactly when those of the
    file are. *)
Theorem read_csv_file_keeps_usernames (filepath : string)
    (reader : list raw_row) (w : @world server) :
  disk filepath = Csv reader ->
  exists users,
    read_csv_file disk filepath w = (Return users, w)
    /\ usernames users = csv_usernames reader
    /\ (NoDup (usernames users) <-> NoDup (csv_usernames reader)).
Proof.
  intros Hfile.
  destruct (read_csv_file_rows filepath reader w Hfile) as (users & Hr & Hc).
  exists users. split; [done|].
  pose proof (usernames_converted reader users Hc) as Hn.
  split; [done|]. by rewrite Hn.
Qed.

(** C9: a non-empty emails cell is split on semicolons: the pieces contain
    no semicolon, and joined with semicolons they give the cell back.  Every
    piece, stripped of surrounding white space, becomes an entry with that
    address as value, type work and primary True; with several addresses
    every entry is primary. *)
Theorem read_csv_file_emails (filepath : string) (reader : list raw_row)
    (i : nat) (r : raw_row) (s : string) (w : @world server) :
  disk filepath = Csv reader ->
  reader !! i = Some r ->
  r !! "emails" = Some (Some s) ->
  s <> EmptyString ->
  exists users row pieces,
    read_csv_file disk filepath w = (Return users, w)
    /\ users !! i = Some row
    /\ pieces = Str.split ";" s
    /\ join ";" pieces = s
    /\ Forall (fun piece => count_char ";" piece = 0) pieces
    /\ row !! "emails" =
         Some (VList
                 ((fun piece =>
                     VDict {[ "value" := VStr (Str.strip piece);
                              "type" := VStr "work";
                              "primary" := VBool true ]}) <$> pieces))
    /\ forall entry,
         row !! "emails" = Some (VList entry) ->
         length entry = length pieces /\ Forall primary_work_email entry.
Proof.
  intros Hfile Hi Hemails Hs.
  destruct (read_csv_file_rows filepath reader w Hfile) as (users & Hr & Hc).
  destruct (convert_rows_lookup reader users Hc i r Hi) as (row & Hrow & Hcr).
  exists users, row, (Str.split ";" s).
  split; [done|]. split; [done|]. split; [done|].
  split; [apply split_join|]. split; [apply split_pieces_without|].
  assert (Hlist : row !! "emails" =
            Some (VList
                    ((fun piece =>
                        VDict {[ "value" := VStr (Str.strip piece);
                                 "type" := VStr "work";
                                 "primary" := VBool true ]})
                     <$> Str.split ";" s))).
  { unfold convert_row in Hcr. rewrite convert_emails_cells, Hemails in Hcr.
    destruct s as [|a s]; [done|].
    rewrite (convert_roles_other _ row "emails" Hcr) by done.
    rewrite lookup_insert_eq. by rewrite <- list_fmap_compose. }
  split; [done|].
  intros entry Hentry. rewrite Hlist in Hentry. injection Hentry as <-.
  split; [by rewrite length_fmap|].
  apply Forall_fmap, Forall_forall. intros piece _.
  by exists (Str.strip piece).
Qed.

(** C10: of a non-empty roles cell only the first piece is kept, stripped
    of surrounding white space: the part of the cell before its first
    semicolon, since the pieces contain no semicolon and joined with
    semicolons give the cell back.  The other pieces are in no field of the
    row.  [format_user_for_scim] emits a roles list of one element, whose
    value is that piece, or user when the record has no roles field. *)
Theorem read_csv_file_first_role (filepath : string)
    (reader : list raw_row) (i : nat) (r : raw_row) (s : string)
    (w : @world server) :
  (disk filepath = Csv reader ->
   reader !! i = Some r ->
   r !! "roles" = Some (Some s) ->
   s <> EmptyString ->
   exists users row first others,
     read_csv_file disk filepath w = (Return users, w)
     /\ users !! i = Some row
     /\ Str.split ";" s = first :: others
     /\ join ";" (first :: others) = s
     /\ Forall (fun piece => count_char ";" piece = 0) (first :: others)
     /\ row !! "roles" = Some (VStr (Str.strip first))
     /\ format_user_for_scim row !! "roles" =
          Some (VList [VDict {[ "value" := VStr (Str.strip first);
                                "primary" := VBool true ]}]))
  /\ (forall user_data : dict,
       exists role,
         format_user_for_scim user_data !! "roles" =
           Some (VList [VDict {[ "value" := role;
                                 "primary" := VBool true ]}])
         /\ (user_data !! "roles" = None -> role = VStr "user")).
Proof.
  split.
  - intros Hfile Hi Hroles Hs.
    destruct (read_csv_file_rows filepath reader w Hfile)
      as (users & Hr & Hc).
    destruct (convert_rows_lookup reader users Hc i r Hi)
      as (row & Hrow & Hcr).
    destruct s as [|a s]; [done|].
    unfold convert_row in Hcr. rewrite convert_emails_cells in Hcr.
    set (row1 := match r !! "emails" with
                 | Some (Some (String _ _)) => _ | _ => _ end) in Hcr.
    assert (H1 : row1 !! "roles" = Some (VStr (String a s))).
    { subst row1. destruct (r !! "emails") as [[[|b t]|]|];
        rewrite ?lookup_insert_ne by done;
        by rewrite lookup_fmap, Hroles. }
    destruct (convert_roles_string row1 a s H1) as (first & others & Hsp & Hc2).
    rewrite Hc2 in Hcr. injection Hcr as <-.
    exists users, (<["roles" := VStr (Str.strip first)]> row1), first, others.
    split; [done|]. split; [done|]. split; [done|].
    split; [rewrite <- Hsp; apply split_join|].
    split; [rewrite <- Hsp; apply split_pieces_without|].
    split.
    + by rewrite lookup_insert_eq.
    + unfold format_user_for_scim, dict_get_default.
      rewrite (lookup_insert_eq row1). simpl.
      by simplify_map_eq.
  - intros user_data.
    exists (dict_get_default user_data "roles" (VStr "user")). split.
    + unfold format_user_for_scim. by simplify_map_eq.
    + unfold dict_get_default. by intros ->.
Qed.

End CsvFile.

(** ** Properties of the field mapping *)

(** C4: the provisioning record has exactly the seven fixed fields, with the
    fixed schema list, active True, and the userName of the input record (or
    the empty string) as externalId. *)
Theorem format_user_for_scim_fields (user_data : dict) :
  dom (format_user_for_scim user_data) =
    ({[ "schemas"; "externalId"; "active"; "userName"; "displayName";
        "emails"; "roles" ]} : gset string)
  /\ format_user_for_scim user_data !! "schemas" =
       Some (VList [VStr "urn:ietf:params:scim:schemas:core:2.0:User"])
  /\ format_user_for_scim user_data !! "active" = Some (VBool true)
  /\ format_user_for_scim user_data !! "externalId" =
       Some match user_data !! "userName" with
            | Some username => username
            | None => VStr EmptyString
            end.
Proof.
  unfold format_user_for_scim, dict_get_default.
  split; [|split; [|split]].
  - rewrite !dom_insert_L, dom_singleton_L. set_solver.
  - by simplify_map_eq.
  - by simplify_map_eq.
  - simplify_map_eq. by destruct (user_data !! "userName").
Qed.

(** The provisioning record depends on four fields of the input record and
    on nothing else. *)
Lemma format_user_for_scim_reads (user_data1 user_data2 : dict) :
  (forall k, k ∈ ["userName"; "displayName"; "emails"; "roles"] ->
             user_data1 !! k = user_data2 !! k) ->
  format_user_for_scim user_data1 = format_user_for_scim user_data2.
Proof.
  intros Hsame. unfold format_user_for_scim, dict_get_default.
  rewrite (Hsame "userName"), (Hsame "displayName"), (Hsame "emails"),
    (Hsame "roles"); [done|set_solver..].
Qed.

(** The four values the mapping reads can be read back from its result. *)
Lemma format_user_for_scim_values (user_data : dict) :
  format_user_for_scim user_data !! "userName" =
    Some (default (VStr EmptyString) (user_data !! "userName"))
  /\ format_user_for_scim user_data !! "displayName" =
       Some (default (VStr EmptyString) (user_data !! "displayName"))
  /\ format_user_for_scim user_data !! "emails" =
       Some (default (VList []) (user_data !! "emails"))
  /\ format_user_for_scim user_data !! "roles" =
       Some (VList [VDict {[ "value" :=
                               default (VStr "user") (user_data !! "roles");
                             "primary" := VBool true ]}]).
Proof.
  unfold format_user_for_scim, dict_get_default.
  repeat split; by simplify_map_eq.
Qed.

(** C5: the provisioning record is determined by the input record, and by
    no more of it than the mapping reads: equal input records give equal
    provisioning records, and two input records give the same provisioning
    record exactly when their userName, displayName, emails and roles, each
    with its default when missing, are the same. *)
Theorem format_user_for_scim_deterministic (user_data1 user_data2 : dict) :
  (user_data1 = user_data2 ->
   format_user_for_scim user_data1 = format_user_for_scim user_data2)
  /\ (format_user_for_scim user_data1 = format_user_for_scim user_data2
      <-> default (VStr EmptyString) (user_data1 !! "userName")
            = default (VStr EmptyString) (user_data2 !! "userName")
          /\ default (VStr EmptyString) (user_data1 !! "displayName")
               = default (VStr EmptyString) (user_data2 !! "displayName")
          /\ default (VList []) (user_data1 !! "emails")
               = default (VList []) (user_data2 !! "emails")
          /\ default (VStr "user") (user_data1 !! "roles")
               = default (VStr "user") (user_data2 !! "roles")).
Proof.
  assert (Hback : format_user_for_scim user_data1
                    = format_user_for_scim user_data2 ->
                  default (VStr EmptyString) (user_data1 !! "userName")
                    = default (VStr EmptyString) (user_data2 !! "userName")
                  /\ default (VStr EmptyString) (user_data1 !! "displayName")
                       = default (VStr EmptyString)
                           (user_data2 !! "displayName")
                  /\ default (VList []) (user_data1 !! "emails")
                       = default (VList []) (user_data2 !! "emails")
                  /\ default (VStr "user") (user_data1 !! "roles")
                       = default (VStr "user") (user_data2 !! "roles")).
  { intros Hsame.
    destruct (format_user_for_scim_values user_data1)
      as (Hn1 & Hd1 & He1 & Hr1).
    destruct (format_user_for_scim_values user_data2)
      as (Hn2 & Hd2 & He2 & Hr2).
    rewrite Hsame in Hn1, Hd1, He1, Hr1.
    rewrite Hn2 in Hn1. rewrite Hd2 in Hd1. rewrite He2 in He1.
    rewrite Hr2 in Hr1.
    injection Hn1 as Hn. injection Hd1 as Hd. injection He1 as He.
    assert (Hr : ({[ "value" := default (VStr "user") (user_data2 !! "roles");
                     "primary" := VBool true ]} : dict)
                 = {[ "value" := default (VStr "user") (user_data1 !! "roles");
                      "primary" := VBool true ]}) by congruence.
    pose proof (f_equal (fun m : dict => m !! "value") Hr) as Hv.
    cbv beta in Hv. rewrite !lookup_insert_eq in Hv. injection Hv as Hv.
    by repeat split. }
  split; [by intros ->|]. split; [exact Hback|].
  intros (Hn & Hd & He & Hr).
  unfold format_user_for_scim, dict_get_default.
  by rewrite Hn, Hd, He, Hr.
Qed.

(** ** Properties of the client *)

Section Client.

Context {server : Type}.
Variable serve : request -> server -> http_result * server.
Variable repr : value -> string.

(** *** Which requests a computation sends *)

Lemma sends_only_ret {A} P (a : A) : sends_only P (ret a : @M server A).
Proof. intros w. exists []. by rewrite app_nil_r. Qed.

Lemma sends_only_raise {A} P e : sends_only P (raise e : @M server A).
Proof. intros w. exists []. by rewrite app_nil_r. Qed.

Lemma sends_only_log P l m : sends_only P (log l m : @M server unit).
Proof. intros w. exists []. simpl. by rewrite app_nil_r. Qed.

Lemma sends_only_bind {A B} P (m : @M server A) (k : A -> @M server B) :
  sends_only P m -> (forall a, sends_only P (k a)) ->
  sends_only P (bind m k).
Proof.
  intros Hm Hk w. unfold bind.
  destruct (Hm w) as (new1 & E1 & F1).
  destruct (m w) as [[a|e] w1]; simpl in E1.
  - destruct (Hk a w1) as (new2 & E2 & F2).
    exists (new1 ++ new2)%list. rewrite E2, E1, app_assoc. split; [done|].
    by apply Forall_app.
  - by exists new1.
Qed.

Lemma sends_only_try_except {A} P (m : @M server A)
    (handler : exn -> @M server A) :
  sends_only P m -> (forall e, sends_only P (handler e)) ->
  sends_only P (try_except m handler).
Proof.
  intros Hm Hh w. unfold try_except.
  destruct (Hm w) as (new1 & E1 & F1).
  destruct (m w) as [[a|e] w1]; simpl in E1.
  - by exists new1.
  - destruct (Hh e w1) as (new2 & E2 & F2).
    exists (new1 ++ new2)%list. rewrite E2, E1, app_assoc. split; [done|].
    by apply Forall_app.
Qed.

Lemma sends_only_send P req : P req -> sends_only P (send serve req).
Proof.
  intros HP w. exists [req]. unfold send.
  destruct (serve req (remote w)). simpl. split; [done|].
  by apply Forall_singleton.
Qed.

Ltac sends :=
  repeat lazymatch goal with
    | |- sends_only _ (bind _ _) => apply sends_only_bind; [|intros ?]
    | |- sends_only _ (try_except _ _) =>
        apply sends_only_try_except; [|intros ?]
    | |- sends_only _ (ret _) => apply sends_only_ret
    | |- sends_only _ (raise _) => apply sends_only_raise
    | |- sends_only _ (log _ _) => apply sends_only_log
    | |- sends_only _ (send _ _) => apply sends_only_send; assumption
    end.

Lemma sends_only_make_request P self method url data :
  P {| method := method; url := url; headers := client_headers self;
       json := data |} ->
  sends_only P (_make_request serve self method url data).
Proof.
  intros HP. unfold _make_request. sends.
  destruct a as [msg carried|status_code body]; sends.
  - unfold log_response. destruct carried as [[status_code text]|]; sends.
    destruct (_ && _); sends.
  - destruct (_ && _); sends.
    destruct (_ =? _)%Z; sends.
    destruct body; sends.
Qed.

Lemma sends_only_list_users self filter_str :
  sends_only reads_or_creates (list_users serve self filter_str).
Proof.
  unfold list_users. sends.
  - apply sends_only_make_request. by left.
  - destruct a; sends.
Qed.

Lemma sends_only_get_user self username :
  sends_only reads_or_creates (get_user serve repr self username).
Proof.
  unfold get_user. sends.
  - apply sends_only_list_users.
  - destruct (truthy a); sends.
    unfold first_item. destruct a as [| | |[|]|[|]|]; sends.
Qed.

Lemma sends_only_get_user_by_id self user_id :
  sends_only reads_or_creates (get_user_by_id serve self user_id).
Proof. apply sends_only_make_request. by left. Qed.

Lemma sends_only_create_user self user_data :
  sends_only reads_or_creates (create_user serve self user_data).
Proof.
  unfold create_user. destruct (user_data !! "userName"); sends.
  apply sends_only_make_request. by right.
Qed.

Lemma sends_only_process_user self user_data :
  sends_only reads_or_creates (process_user serve repr self user_data).
Proof.
  unfold process_user. destruct (negb _); sends.
  - apply sends_only_get_user.
  - destruct (truthy a); sends.
    + apply sends_only_create_user.
    + unfold get_id. destruct a0; sends.
Qed.

Lemma sends_only_process_users self users :
  sends_only reads_or_creates (process_users serve repr self users).
Proof.
  induction users as [|user_data users IH]; cbn [process_users].
  - apply sends_only_ret.
  - apply sends_only_bind; [apply sends_only_process_user|by intros _].
Qed.

(** *** What one request does *)

Lemma make_request_sent self method url data w :
  sent (_make_request serve self method url data w).2 =
  (sent w ++ [{| method := method; url := url;
                 headers := client_headers self; json := data |}])%list.
Proof.
  unfold _make_request, bind, send.
  destruct (serve _ (remote w)) as [[msg carried|status_code body] remote'].
  - destruct carried as [[status_code text]|]; [|reflexivity].
    unfold log_response. simpl. by destruct (_ && _).
  - destruct (_ && _); [reflexivity|].
    destruct (_ =? _)%Z; [reflexivity|].
    by destruct body.
Qed.

Lemma make_request_body self method url data w status_code v remote' :
  serve {| method := method; url := url; headers := client_headers self;
           json := data |} (remote w)
    = (Response status_code (Some v), remote') ->
  has_body status_code ->
  _make_request serve self method url data w =
    (Return v,
     {| remote := remote';
        sent := (sent w ++ [{| method := method; url := url;
                               headers := client_headers self;
                               json := data |}])%list;
        logged := logged w |}).
Proof.
  intros Hserve [Hok Hcontent]. unfold _make_request, bind, send.
  rewrite Hserve, Hok.
  by destruct (Z.eqb_spec status_code 204).
Qed.

Lemma make_request_no_content self method url data w body remote' :
  serve {| method := method; url := url; headers := client_headers self;
           json := data |} (remote w)
    = (Response 204 body, remote') ->
  (_make_request serve self method url data w).1 = Return (VDict ∅).
Proof.
  intros Hserve. unfold _make_request, bind, send. by rewrite Hserve.
Qed.

Lemma list_users_lookup self username :
  list_users serve self
    (Some ("userName eq " ++ Str.dquote ++ fstr repr username
           ++ Str.dquote)) =
  bind (_make_request serve self "GET"
          (url (lookup_request repr self username)) None)
       (fun response =>
          match response with
          | VDict d => ret (dict_get_default d "Resources" (VList []))
          | _ => raise AttributeError
          end).
Proof. reflexivity. Qed.

Lemma first_item_world users (w : @world server) :
  (first_item users w).2 = w.
Proof. by destruct users as [| | |[|]|[|]|]. Qed.

Lemma get_user_sent self username w :
  sent (get_user serve repr self username w).2 =
  (sent w ++ [lookup_request repr self username])%list.
Proof.
  unfold get_user. rewrite list_users_lookup. unfold bind.
  pose proof (make_request_sent self "GET"
                (url (lookup_request repr self username)) None w) as Hs.
  destruct (_make_request _ _ _ _ _ w) as [[response|e] w1];
    simpl in Hs; [|done].
  destruct response; try done. unfold ret at 1.
  destruct (truthy _); [|done]. by rewrite first_item_world.
Qed.

(** C7: a lookup sends exactly one request, the list call filtered on the
    user name, whatever the answer says about further pages; when the
    answer is a JSON object it returns the first item of its Resources
    list, and None when that list is empty or missing, as it is in the
    empty dictionary that stands for an answer without content. *)
Theorem get_user_single_lookup self username w :
  sent (get_user serve repr self username w).2 =
    (sent w ++ [lookup_request repr self username])%list
  /\ (forall status_code d remote',
       serve (lookup_request repr self username) (remote w)
         = (Response status_code (Some (VDict d)), remote') ->
       has_body status_code ->
       (forall user users,
          d !! "Resources" = Some (VList (user :: users)) ->
          (get_user serve repr self username w).1 = Return user)
       /\ (d !! "Resources" = Some (VList []) ->
           (get_user serve repr self username w).1 = Return VNone)
       /\ (d !! "Resources" = None ->
           (get_user serve repr self username w).1 = Return VNone))
  /\ (forall body remote',
       serve (lookup_request repr self username) (remote w)
         = (Response 204 body, remote') ->
       (get_user serve repr self username w).1 = Return VNone).
Proof.
  split; [apply get_user_sent|]. split; cycle 1.
  { intros body remote' Hserve.
    pose proof (make_request_no_content self "GET"
                  (url (lookup_request repr self username)) None w body
                  remote' Hserve) as Hempty.
    unfold get_user. rewrite list_users_lookup. unfold bind.
    destruct (_make_request _ _ _ _ _ w) as [response w1].
    simpl in Hempty. by rewrite Hempty. }
  intros status_code d remote' Hserve Hstatus.
  unfold get_user. rewrite list_users_lookup. unfold bind.
  rewrite (make_request_body self "GET"
             (url (lookup_request repr self username)) None w status_code
             (VDict d) remote' Hserve Hstatus).
  unfold dict_get_default, ret at 1.
  split; [|split].
  - by intros user users ->.
  - by intros ->.
  - by intros ->.
Qed.

End Client.

(** ** Properties of the script *)

Section Script.

Context {server : Type}.
Variable serve : request -> server -> http_result * server.
Variable disk : string -> file.
Variable repr : value -> string.

Lemma format_user_for_scim_username user_data :
  format_user_for_scim user_data !! "userName" =
  Some (dict_get_default user_data "userName" (VStr EmptyString)).
Proof. unfold format_user_for_scim. by simplify_map_eq. Qed.

(** [create_user] on a provisioning record logs three records and sends
    the create request. *)
Lemma create_user_formatted self user_data (w : @world server) :
  create_user serve self (format_user_for_scim user_data) w =
  _make_request serve self "POST" (scim_endpoint self)
    (Some (format_user_for_scim user_data))
    (with_log
       (with_log
          (with_log w INFO
             (CreatingUser
                (dict_get_default user_data "userName" (VStr EmptyString))))
          INFO (UserData (format_user_for_scim user_data)))
       INFO (ScimEndpoint (scim_endpoint self))).
Proof.
  unfold create_user. by rewrite format_user_for_scim_username.
Qed.

Lemma create_user_sent self user_data (w : @world server) :
  sent (create_user serve self (format_user_for_scim user_data) w).2 =
  (sent w ++ [create_request self (format_user_for_scim user_data)])%list.
Proof. rewrite create_user_formatted. by rewrite make_request_sent. Qed.

Lemma get_id_world created_user (w : @world server) :
  (get_id created_user w).2 = w.
Proof. by destruct created_user. Qed.

(** The loop body on a row whose userName is empty, None or missing. *)
Lemma process_user_falsy self user_data (w : @world server) :
  truthy (dict_get user_data "userName") = false ->
  process_user serve repr self user_data w =
  (Return tt, with_log w WARNING SkippingMissingUserName).
Proof. intros H. unfold process_user. by rewrite H. Qed.

(** The loop body never raises: the handler of its [try] only logs. *)
Lemma process_user_returns self user_data (w : @world server) :
  (process_user serve repr self user_data w).1 = Return tt.
Proof.
  unfold process_user. destruct (negb _); [done|].
  unfold try_except, bind.
  destruct (get_user _ _ _ _ w) as [[existing_user|e] w1]; [|done].
  destruct (truthy existing_user); [done|].
  destruct (create_user _ _ _ w1) as [[created_user|e] w2]; [|done].
  by destruct created_user.
Qed.

Lemma process_users_cons self user_data users (w : @world server) :
  process_users serve repr self (user_data :: users) w =
  process_users serve repr self users
    (process_user serve repr self user_data w).2.
Proof.
  cbn [process_users]. unfold bind at 1.
  pose proof (process_user_returns self user_data w) as H.
  destruct (process_user _ _ _ _ w) as [[[]|e] w1]; [done|done].
Qed.

Lemma process_users_returns self users (w : @world server) :
  (process_users serve repr self users w).1 = Return tt.
Proof.
  revert w. induction users as [|user_data users IH]; intros w; [done|].
  by rewrite process_users_cons.
Qed.


(** C8: a row whose userName is missing, None or the empty string sends
    no request at all; the loop logs one warning and goes on with the
    remaining rows. *)
Theorem process_users_skips_nameless self user_data users
    (w : @world server) :
  user_data !! "userName" = None
  \/ user_data !! "userName" = Some VNone
  \/ user_data !! "userName" = Some (VStr EmptyString) ->
  (process_user serve repr self user_data w).2 =
    with_log w WARNING SkippingMissingUserName
  /\ sent (process_user serve repr self user_data w).2 = sent w
  /\ process_users serve repr self (user_data :: users) w =
       process_users serve repr self users
         (with_log w WARNING SkippingMissingUserName).
Proof.
  intros H.
  assert (Hname : truthy (dict_get user_data "userName") = false).
  { unfold dict_get. by destruct H as [->|[->| ->]]. }
  rewrite process_users_cons, (process_user_falsy _ _ _ Hname).
  by repeat split.
Qed.

(** What [main] ends with depends on the file alone. *)
Lemma main_exit csv url token (w : @world server) :
  (main serve disk repr csv url token w).1 =
  Return match disk csv with
         | Csv _ => Returned
         | _ => SysExit 1
         end.
Proof.
  unfold main, try_except, bind at 1, read_csv_file.
  destruct (disk csv) as [|e|reader]; [done|done|].
  destruct (convert_rows_total reader) as [users ->]. unfold ret at 1.
  destruct users as [|user_data users]; [done|].
  unfold bind.
  pose proof (process_users_returns (new_client url token)
                (user_data :: users) w) as H.
  by destruct (process_users _ _ _ _ w) as [[[]|e] w1].
Qed.

(** C2, as the code has it: when the lookup or the create of a row
    raises, the loop adds one error record to the log, sends nothing more
    for that row, and goes on with the remaining rows; [main] returns
    normally whenever the file could be read, whatever the server
    answered. *)
Theorem process_users_continues_after_failure :
  (forall self user_data users (w w1 : @world server) e,
     truthy (dict_get user_data "userName") = true ->
     get_user serve repr self (dict_get user_data "userName") w
       = (Raise e, w1)
     \/ (exists existing_user w0,
          get_user serve repr self (dict_get user_data "userName") w
            = (Return existing_user, w0)
          /\ truthy existing_user = false
          /\ create_user serve self (format_user_for_scim user_data) w0
               = (Raise e, w1)) ->
     process_users serve repr self (user_data :: users) w =
       process_users serve repr self users
         (with_log w1 ERROR
            (ErrorProcessingUser (dict_get user_data "userName") e)))
  /\ (forall csv url token reader (w : @world server),
       disk csv = Csv reader ->
       (main serve disk repr csv url token w).1 = Return Returned).
Proof.
  split.
  - intros self user_data users w w1 e Hname Hfail.
    rewrite process_users_cons. f_equal.
    unfold process_user. rewrite Hname. cbn [negb].
    unfold try_except, bind.
    destruct Hfail as [->|(existing_user & w0 & -> & -> & ->)]; done.
  - intros csv url token reader w Hfile. by rewrite main_exit, Hfile.
Qed.

Lemma sends_only_main csv url token :
  sends_only reads_or_creates (main serve disk repr csv url token).
Proof.
  unfold main. apply sends_only_try_except.
  - apply sends_only_bind.
    + unfold read_csv_file. destruct (disk csv) as [|e|reader].
      * apply sends_only_raise.
      * apply sends_only_bind; [apply sends_only_log|intros _].
        apply sends_only_raise.
      * destruct (convert_rows reader); [apply sends_only_ret|].
        apply sends_only_bind; [apply sends_only_log|intros _].
        apply sends_only_raise.
    + intros [|user_data users].
      * apply sends_only_bind; [apply sends_only_log|intros _].
        apply sends_only_ret.
      * apply sends_only_bind; [apply sends_only_process_users|intros _].
        apply sends_only_bind; [apply sends_only_log|intros _].
        apply sends_only_ret.
  - intros e. apply sends_only_bind; [apply sends_only_log|intros _].
    apply sends_only_ret.
Qed.

(** C6: every request of a run of the script, and of every method of the
    client, is a GET or a POST; nothing is ever sent with PUT, PATCH or
    DELETE. *)
Theorem no_update_or_delete :
  (forall csv url token,
     sends_only reads_or_creates (main serve disk repr csv url token))
  /\ (forall self users,
       sends_only reads_or_creates (process_users serve repr self users))
  /\ (forall self filter_str,
       sends_only reads_or_creates (list_users serve self filter_str))
  /\ (forall self username,
       sends_only reads_or_creates (get_user serve repr self username))
  /\ (forall self user_id,
       sends_only reads_or_creates (get_user_by_id serve self user_id))
  /\ (forall self user_data,
       sends_only reads_or_creates (create_user serve self user_data)).
Proof.
  split; [exact sends_only_main|].
  split; [apply sends_only_process_users|].
  split; [apply sends_only_list_users|].
  split; [apply sends_only_get_user|].
  split; [apply sends_only_get_user_by_id|apply sends_only_create_user].
Qed.

End Script.

(** ** The script at work *)

(** C2 fails as stated: against a server that cannot be reached the lookup
    of alice raises, and the script still goes on to bob, reports success
    and returns instead of exiting. *)
Lemma failure_does_not_stop_the_run :
  (get_user Mock.unreachable Mock.no_repr Mock.ghe (VStr "alice")
     (Mock.start tt)).1 = Raise (RequestException "connection refused")
  /\ (Mock.run_main Mock.unreachable tt "users.csv").1 = Return Returned
  /\ (Mock.run_main Mock.unreachable tt "users.csv").1
       <> Return (SysExit 1)
  /\ sent (Mock.run_main Mock.unreachable tt "users.csv").2 =
       [lookup_request Mock.no_repr Mock.ghe (VStr "alice");
        lookup_request Mock.no_repr Mock.ghe (VStr "bob")]
  /\ logged (Mock.run_main Mock.unreachable tt "users.csv").2 =
       [(ERROR, RequestFailed (RequestException "connection refused"));
        (ERROR, ErrorProcessingUser (VStr "alice")
                  (RequestException "connection refused"));
        (ERROR, RequestFailed (RequestException "connection refused"));
        (ERROR, ErrorProcessingUser (VStr "bob")
                  (RequestException "connection refused"));
        (INFO, SuccessfullyCompleted)].
Proof.
  split; [by vm_compute|].
  split; [by vm_compute|].
  split; [by vm_compute|].
  split; by vm_compute.
Qed.

(** C3 fails as stated: a file that lists alice on two lines gives a batch
    with the same userName twice, and both rows are looked up and created. *)
Lemma repeated_username_is_processed_twice :
  exists users,
    read_csv_file Mock.disk "twice.csv" (Mock.start tt)
      = (Return users, Mock.start tt)
    /\ usernames users = [VStr "alice"; VStr "alice"]
    /\ ~ NoDup (usernames users)
    /\ sent (Mock.run_main Mock.read_only tt "twice.csv").2 =
         [lookup_request Mock.no_repr Mock.ghe (VStr "alice");
          create_request Mock.ghe (format_user_for_scim Mock.alice_user);
          lookup_request Mock.no_repr Mock.ghe (VStr "alice");
          create_request Mock.ghe (format_user_for_scim Mock.alice_user)].
Proof.
  exists [Mock.alice_user; Mock.alice_user].
  split; [by vm_compute|].
  split; [by vm_compute|].
  split; [|by vm_compute].
  assert (E : usernames [Mock.alice_user; Mock.alice_user]
              = [VStr "alice"; VStr "alice"]) by (by vm_compute).
  rewrite E. intros H. apply NoDup_cons in H as [H _].
  apply H. by left.
Qed.


(** The unreachable server: alice fails, bob is next; users.csv is read. *)
Lemma process_users_continues_after_failure_unreachable :
  process_users Mock.unreachable Mock.no_repr Mock.ghe
    [Mock.alice_user; Mock.bob_user] (Mock.start tt) =
  process_users Mock.unreachable Mock.no_repr Mock.ghe [Mock.bob_user]
    (with_log
       (get_user Mock.unreachable Mock.no_repr Mock.ghe
          (dict_get Mock.alice_user "userName") (Mock.start tt)).2
       ERROR
       (ErrorProcessingUser (dict_get Mock.alice_user "userName")
          (RequestException "connection refused")))
  /\ (main Mock.unreachable Mock.disk Mock.no_repr "users.csv"
        "https://ghe.example/" "secret" (Mock.start tt)).1
     = Return Returned.
Proof.
  destruct (process_users_continues_after_failure Mock.unreachable Mock.disk
              Mock.no_repr) as [Hrow Hmain].
  split.
  - apply Hrow.
    + vm_compute. reflexivity.
    + left. vm_compute. reflexivity.
  - apply (Hmain "users.csv" _ _ [Mock.alice; Mock.bob]). reflexivity.
Defined.

Lemma read_csv_file_keeps_usernames_users_csv :
  exists users,
    read_csv_file Mock.disk "users.csv" (Mock.start tt)
      = (Return users, Mock.start tt)
    /\ usernames users = csv_usernames [Mock.alice; Mock.bob]
    /\ (NoDup (usernames users)
        <-> NoDup (csv_usernames [Mock.alice; Mock.bob])).
Proof.
  apply (read_csv_file_keeps_usernames Mock.disk "users.csv"
           [Mock.alice; Mock.bob] (Mock.start tt)).
  reflexivity.
Defined.

(** Two records that differ in a column the mapping does not read, and of
    which only one spells out the empty emails list, give one record. *)
Lemma format_user_for_scim_deterministic_carol :
  format_user_for_scim
    {[ "userName" := VStr "carol"; "department" := VStr "R&D" ]} =
  format_user_for_scim
    {[ "userName" := VStr "carol"; "emails" := VList [] ]}.
Proof.
  apply (proj2 (proj2 (format_user_for_scim_deterministic
                         {[ "userName" := VStr "carol";
                            "department" := VStr "R&D" ]}
                         {[ "userName" := VStr "carol";
                            "emails" := VList [] ]}))).
  split; [vm_compute; reflexivity|].
  split; [vm_compute; reflexivity|].
  split; vm_compute; reflexivity.
Defined.

(** bob is in the directory: the lookup returns his record. *)
Lemma get_user_single_lookup_bob :
  sent (get_user Mock.directory Mock.no_repr Mock.ghe (VStr "bob")
          (Mock.start ["bob"])).2 =
    [lookup_request Mock.no_repr Mock.ghe (VStr "bob")]
  /\ (get_user Mock.directory Mock.no_repr Mock.ghe (VStr "bob")
        (Mock.start ["bob"])).1 = Return (Mock.resource "bob").
Proof.
  destruct (get_user_single_lookup Mock.directory Mock.no_repr Mock.ghe
              (VStr "bob") (Mock.start ["bob"])) as (Hsent & Hfound & _).
  split; [exact Hsent|].
  destruct (Hfound 200%Z {[ "Resources" := VList [Mock.resource "bob"] ]}
              ["bob"]) as (Hfirst & _ & _).
  - vm_compute. reflexivity.
  - split; [reflexivity|discriminate].
  - apply (Hfirst (Mock.resource "bob") []). vm_compute. reflexivity.
Defined.

Lemma process_users_skips_nameless_row :
  (process_user Mock.directory Mock.no_repr Mock.ghe Mock.nameless_user
     (Mock.start ["bob"])).2 =
    with_log (Mock.start ["bob"]) WARNING SkippingMissingUserName
  /\ sent (process_user Mock.directory Mock.no_repr Mock.ghe
             Mock.nameless_user (Mock.start ["bob"])).2 = []
  /\ process_users Mock.directory Mock.no_repr Mock.ghe
       [Mock.nameless_user; Mock.bob_user] (Mock.start ["bob"]) =
     process_users Mock.directory Mock.no_repr Mock.ghe [Mock.bob_user]
       (with_log (Mock.start ["bob"]) WARNING SkippingMissingUserName).
Proof.
  apply (process_users_skips_nameless Mock.directory Mock.no_repr Mock.ghe
           Mock.nameless_user [Mock.bob_user] (Mock.start ["bob"])).
  right. right. vm_compute. reflexivity.
Defined.

(** The cell of alice has one semicolon: she gets two entries, both
    primary, the second without the blank that follows the semicolon. *)
Lemma read_csv_file_emails_alice :
  exists users row,
    read_csv_file Mock.disk "users.csv" (Mock.start tt)
      = (Return users, Mock.start tt)
    /\ users !! 0%nat = Some row
    /\ row !! "emails" =
         Some (VList
                 [VDict {[ "value" := VStr "alice@example.com";
                           "type" := VStr "work";
                           "primary" := VBool true ]};
                  VDict {[ "value" := VStr "a@example.org";
                           "type" := VStr "work";
                           "primary" := VBool true ]}]).
Proof.
  destruct (read_csv_file_emails Mock.disk "users.csv"
              [Mock.alice; Mock.bob] 0 Mock.alice
              "alice@example.com; a@example.org" (Mock.start tt))
    as (users & row & pieces & Hread & Hrow & Hpieces & _ & _ & Hemails & _).
  - reflexivity.
  - reflexivity.
  - vm_compute. reflexivity.
  - discriminate.
  - exists users, row. split; [exact Hread|]. split; [exact Hrow|].
    rewrite Hemails, Hpieces. reflexivity.
Defined.

(** Of the two roles of alice only enterprise_owner is kept. *)
Lemma read_csv_file_first_role_alice :
  exists users row,
    read_csv_file Mock.disk "users.csv" (Mock.start tt)
      = (Return users, Mock.start tt)
    /\ users !! 0%nat = Some row
    /\ row !! "roles" = Some (VStr "enterprise_owner")
    /\ format_user_for_scim row !! "roles" =
         Some (VList [VDict {[ "value" := VStr "enterprise_owner";
                               "primary" := VBool true ]}]).
Proof.
  destruct (proj1 (read_csv_file_first_role Mock.disk "users.csv"
                     [Mock.alice; Mock.bob] 0 Mock.alice
                     "enterprise_owner; user" (Mock.start tt)))
    as (users & row & first & others & Hread & Hrow & Hsplit & _ & _
        & Hrole & Hformat).
  - reflexivity.
  - reflexivity.
  - vm_compute. reflexivity.
  - discriminate.
  - injection Hsplit as Hfirst _.
    exists users, row. split; [exact Hread|]. split; [exact Hrow|].
    rewrite Hrole, Hformat, <- Hfirst. split; reflexivity.
Defined.

(** ** More about the strings and the CSV conversion *)








Lemma rstrip_snoc (p : ascii -> bool) (c : ascii) (s : string) :
  p c = true -> Str.rstrip p (s ++ String c EmptyString) = Str.rstrip p s.
Proof.
  intros Hc. induction s as [|d s IH]; simpl.
  - by rewrite Hc.
  - by rewrite IH.
Qed.

Lemma rstrip_no_tail (p : ascii -> bool) (c : ascii) (s t : string) :
  p c = true -> Str.rstrip p s <> t ++ String c EmptyString.
Proof.
  intros Hc. revert t. induction s as [|d s IH]; intros t.
  - by destruct t.
  - cbn [Str.rstrip]. destruct (Str.rstrip p s) as [|e r] eqn:E.
    + destruct (p d) eqn:Ed; [by destruct t|].
      destruct t as [|d' [|? ?]]; cbn [append]; [|done|done].
      intros [= ->]. congruence.
    + destruct t as [|d' t']; cbn [append]; [done|].
      intros [= _ H]. by apply (IH t').
Qed.

Lemma append_empty_r (s : string) : s ++ EmptyString = s.
Proof.
  induction s as [|c s IH]; [done|].
  change (String c (s ++ EmptyString) = String c s). by rewrite IH.
Qed.

Lemma convert_roles_dom (row row' : dict) :
  convert_roles row = Return row' -> dom row' = dom row.
Proof.
  unfold convert_roles. intros H.
  destruct (row !! "roles") as [v|] eqn:E; [|by simplify_eq].
  destruct (truthy v); [|by simplify_eq].
  destruct v; try done.
  destruct (Str.strip <$> Str.split ";" s); [done|].
  injection H as <-. by apply dom_insert_lookup_L.
Qed.

(** The row after the emails cell was converted. *)
Lemma convert_row_steps (r : raw_row) :
  exists row1,
    convert_row r = convert_roles row1
    /\ dom row1 = dom r
    /\ (forall k, k <> "emails" -> row1 !! k = cell_value <$> r !! k)
    /\ row1 !! "emails" =
         match r !! "emails" with
         | Some (Some (String a s)) =>
             Some (VList (email_entry <$>
                          (Str.strip <$> Str.split ";" (String a s))))
         | cell => cell_value <$> cell
         end.
Proof.
  unfold convert_row. rewrite convert_emails_cells.
  destruct (r !! "emails") as [[[|a s]|]|] eqn:E;
    eexists; (split; [reflexivity|]).
  1,3,4: by rewrite dom_fmap_L, lookup_fmap, E;
           repeat split; [intros k _; apply lookup_fmap].
  split; [|split].
  - rewrite dom_insert_lookup_L, dom_fmap_L; [done|].
    by rewrite lookup_fmap, E.
  - intros k Hk. by rewrite lookup_insert_ne, lookup_fmap.
  - by rewrite lookup_insert_eq.
Qed.

Lemma convert_row_dom (r : raw_row) (row : dict) :
  convert_row r = Return row -> dom row = dom r.
Proof.
  destruct (convert_row_steps r) as (row1 & -> & Hdom & _).
  intros H. by rewrite (convert_roles_dom row1 row H).
Qed.

Lemma convert_row_emails (r : raw_row) (row : dict) :
  convert_row r = Return row ->
  row !! "emails" =
    match r !! "emails" with
    | Some (Some (String a s)) =>
        Some (VList (email_entry <$>
                     (Str.strip <$> Str.split ";" (String a s))))
    | cell => cell_value <$> cell
    end.
Proof.
  destruct (convert_row_steps r) as (row1 & -> & _ & _ & <-).
  intros H. by apply convert_roles_other.
Qed.

Lemma convert_row_roles_empty (r : raw_row) (row : dict) :
  convert_row r = Return row ->
  r !! "roles" = None \/ r !! "roles" = Some None
  \/ r !! "roles" = Some (Some EmptyString) ->
  row !! "roles" = cell_value <$> r !! "roles".
Proof.
  destruct (convert_row_steps r) as (row1 & -> & _ & Hother & _).
  intros H Hroles. rewrite <- (Hother "roles") by done.
  rewrite convert_roles_falsy in H; [by injection H as <-|].
  intros v. rewrite (Hother "roles") by done.
  destruct Hroles as [->|[->| ->]]; by intros [= <-].
Qed.

Lemma convert_rows_length (reader : list raw_row) (users : list dict) :
  convert_rows reader = Return users -> length users = length reader.
Proof.
  revert users. induction reader as [|r reader IH]; intros users H.
  - by injection H as <-.
  - simpl in H. destruct (convert_row r) as [row|]; [|done].
    destruct (convert_rows reader) as [users'|]; [|done].
    injection H as <-. simpl. by rewrite (IH users').
Qed.

Lemma format_user_for_scim_emails (user_data : dict) :
  format_user_for_scim user_data !! "emails" =
  Some (dict_get_default user_data "emails" (VList [])).
Proof. unfold format_user_for_scim. by simplify_map_eq. Qed.

Lemma format_user_for_scim_roles (user_data : dict) :
  format_user_for_scim user_data !! "roles" =
  Some (VList [VDict {[ "value" :=
                          dict_get_default user_data "roles" (VStr "user");
                        "primary" := VBool true ]}]).
Proof. unfold format_user_for_scim. by simplify_map_eq. Qed.

Lemma format_user_for_scim_external_id (user_data : dict) :
  format_user_for_scim user_data !! "externalId" =
  Some (dict_get_default user_data "userName" (VStr EmptyString)).
Proof. unfold format_user_for_scim. by simplify_map_eq. Qed.

(** [__init__]: slashes at the end of the base URL make no difference, the
    base URL of the client never ends with one, the endpoint is the fixed
    path under it, and the token is sent as a bearer token. *)
Theorem new_client_trailing_slashes (url token : string) :
  new_client (url ++ "/") token = new_client url token
  /\ (forall s, base_url (new_client url token) <> s ++ "/")
  /\ scim_endpoint (new_client url token) =
       Str.rstrip_slash url
       ++ "/scim/v2/enterprises/xfusion-digital-technologies/Users"
  /\ client_headers (new_client url token) !! "Authorization" =
       Some ("Bearer " ++ token).
Proof.
  split; [|split; [|split]].
  - unfold new_client, Str.rstrip_slash. by rewrite rstrip_snoc.
  - intros s. by apply rstrip_no_tail.
  - reflexivity.
  - unfold new_client. cbn [client_headers]. by simplify_map_eq.
Qed.

Section CsvFileErrors.

Context {server : Type}.
Variable disk : string -> file.

(** [read_csv_file]: a missing file raises FileNotFoundError before the
    [try], so nothing is logged; an error while the file is read is logged
    once and raised again as it is; a file that can be read never raises
    and logs nothing. *)
Theorem read_csv_file_failures (filepath : string) (w : @world server) :
  (disk filepath = Missing ->
   read_csv_file disk filepath w = (Raise (FileNotFoundError filepath), w))
  /\ (forall e, disk filepath = Unreadable e ->
        read_csv_file disk filepath w =
          (Raise e, with_log w ERROR (ErrorReadingCsv e)))
  /\ (forall reader, disk filepath = Csv reader ->
        exists users, read_csv_file disk filepath w = (Return users, w)
                      /\ length users = length reader).
Proof.
  unfold read_csv_file. split; [|split].
  - by intros ->.
  - by intros e ->.
  - intros reader ->. destruct (convert_rows_total reader) as [users H].
    rewrite H. exists users. split; [done|]. by apply convert_rows_length.
Qed.

(** [read_csv_file] keeps the shape of every row: the row has the keys of
    the CSV row, and every cell other than emails and roles is the CSV cell,
    neither stripped nor checked. *)
Theorem read_csv_file_keeps_other_cells (filepath : string)
    (reader : list raw_row) (i : nat) (r : raw_row) (w : @world server) :
  disk filepath = Csv reader ->
  reader !! i = Some r ->
  exists users row,
    read_csv_file disk filepath w = (Return users, w)
    /\ users !! i = Some row
    /\ dom row = dom r
    /\ forall k, k <> "emails" -> k <> "roles" ->
                 row !! k = cell_value <$> r !! k.
Proof.
  intros Hfile Hi.
  destruct (read_csv_file_rows disk filepath reader w Hfile)
    as (users & Hr & Hc).
  destruct (convert_rows_lookup reader users Hc i r Hi) as (row & Hrow & Hcr).
  exists users, row. split; [done|]. split; [done|].
  split; [by apply convert_row_dom|].
  intros k Hemails Hroles. by apply convert_row_other.
Qed.

(** An emails or roles cell that is empty, or missing on a short line, is
    not converted, and [format_user_for_scim] passes it on as it is: the
    defaults, the empty list and the role user, are used only when the file
    has no such column. *)
Theorem empty_cells_are_not_defaulted (filepath : string)
    (reader : list raw_row) (i : nat) (r : raw_row) (w : @world server) :
  disk filepath = Csv reader ->
  reader !! i = Some r ->
  exists users row,
    read_csv_file disk filepath w = (Return users, w)
    /\ users !! i = Some row
    /\ (forall c, r !! "emails" = Some c -> c = None \/ c = Some EmptyString ->
          format_user_for_scim row !! "emails" = Some (cell_value c))
    /\ (r !! "emails" = None ->
          format_user_for_scim row !! "emails" = Some (VList []))
    /\ (forall c, r !! "roles" = Some c -> c = None \/ c = Some EmptyString ->
          format_user_for_scim row !! "roles" =
            Some (VList [VDict {[ "value" := cell_value c;
                                  "primary" := VBool true ]}]))
    /\ (r !! "roles" = None ->
          format_user_for_scim row !! "roles" =
            Some (VList [VDict {[ "value" := VStr "user";
                                  "primary" := VBool true ]}])).
Proof.
  intros Hfile Hi.
  destruct (read_csv_file_rows disk filepath reader w Hfile)
    as (users & Hr & Hc).
  destruct (convert_rows_lookup reader users Hc i r Hi) as (row & Hrow & Hcr).
  exists users, row. split; [done|]. split; [done|].
  pose proof (convert_row_emails r row Hcr) as Hemails.
  pose proof (convert_row_roles_empty r row Hcr) as Hroles.
  rewrite format_user_for_scim_emails, format_user_for_scim_roles.
  unfold dict_get_default. split; [|split; [|split]].
  - intros c Hcell Hempty. rewrite Hcell in Hemails.
    by destruct Hempty as [->| ->]; rewrite Hemails.
  - intros Hcell. rewrite Hcell in Hemails. by rewrite Hemails.
  - intros c Hcell Hempty.
    rewrite Hroles, Hcell; [done|]. destruct Hempty as [->| ->]; by auto.
  - intros Hcell. rewrite Hroles, Hcell; by auto.
Qed.


(** The userName cell is used as it is: [read_csv_file] does not strip
    it, the one request [get_user] sends for it has the cell, unchanged and
    unescaped, between the two double quotes of the filter, and
    [format_user_for_scim] copies it to the userName and the externalId of
    the provisioning record. *)
Theorem username_is_used_verbatim (filepath : string)
    (reader : list raw_row) (i : nat) (r : raw_row) (s : string)
    (w : @world server) :
  disk filepath = Csv reader ->
  reader !! i = Some r ->
  r !! "userName" = Some (Some s) ->
  exists users row,
    read_csv_file disk filepath w = (Return users, w)
    /\ users !! i = Some row
    /\ dict_get row "userName" = VStr s
    /\ (forall (serve : request -> server -> http_result * server) repr self
               (w' : @world server),
          sent (get_user serve repr self (dict_get row "userName") w').2 =
            (sent w' ++
             [{| method := "GET";
                 url := scim_endpoint self ++ "?filter=userName eq "
                        ++ String (ascii_of_nat 34) EmptyString ++ s
                        ++ String (ascii_of_nat 34) EmptyString;
                 headers := client_headers self;
                 json := None |}])%list)
    /\ format_user_for_scim row !! "userName" = Some (VStr s)
    /\ format_user_for_scim row !! "externalId" = Some (VStr s).
Proof.
  intros Hfile Hi Hcell.
  destruct (read_csv_file_rows disk filepath reader w Hfile)
    as (users & Hr & Hc).
  destruct (convert_rows_lookup reader users Hc i r Hi) as (row & Hrow & Hcr).
  exists users, row. split; [done|]. split; [done|].
  assert (Hname : row !! "userName" = Some (VStr s)).
  { by rewrite (convert_row_other r row "userName" Hcr), Hcell. }
  assert (Hget : dict_get row "userName" = VStr s).
  { unfold dict_get. by rewrite Hname. }
  split; [done|]. split; [|split].
  - intros serve repr self w'. by rewrite Hget, get_user_sent.
  - rewrite format_user_for_scim_username. unfold dict_get_default.
    by rewrite Hname.
  - rewrite format_user_for_scim_external_id. unfold dict_get_default.
    by rewrite Hname.
Qed.

End CsvFileErrors.

(** ** More about the client *)

Section ClientOutcomes.

Context {server : Type}.
Variable serve : request -> server -> http_result * server.
Variable repr : value -> string.

(** [_make_request] sends its request once, whatever comes back.  When the
    transport raises it logs the exception and raises it again, and when the
    exception carries a response whose status is not an error (as after too
    many redirects) it logs the status and the text of that response as
    well.  A status from 400 to 599, and a body of another status than 204
    that is not JSON, log one error record and raise; a 204 gives the empty
    dictionary whatever the body is, and any other answer gives the decoded
    body; neither of the two logs. *)
Theorem make_request_outcomes self method url data (w : @world server)
    remote' :
  let req := {| method := method; url := url;
                headers := client_headers self; json := data |} in
  let w' := {| remote := remote'; sent := (sent w ++ [req])%list;
               logged := logged w |} in
  (forall msg,
     serve req (remote w) = (NoResponse msg None, remote') ->
     _make_request serve self method url data w =
       (Raise (RequestException msg),
        with_log w' ERROR (RequestFailed (RequestException msg))))
  /\ (forall msg status_code text,
        serve req (remote w)
          = (NoResponse msg (Some (status_code, text)), remote') ->
        (400 <= status_code < 600)%Z ->
        _make_request serve self method url data w =
          (Raise (RequestException msg),
           with_log w' ERROR (RequestFailed (RequestException msg))))
  /\ (forall msg status_code text,
        serve req (remote w)
          = (NoResponse msg (Some (status_code, text)), remote') ->
        (status_code < 400 \/ 600 <= status_code)%Z ->
        _make_request serve self method url data w =
          (Raise (RequestException msg),
           with_log
             (with_log
                (with_log w' ERROR (RequestFailed (RequestException msg)))
                ERROR (ResponseStatus status_code))
             ERROR (ResponseBody text)))
  /\ (forall status_code body,
        serve req (remote w) = (Response status_code body, remote') ->
        (400 <= status_code < 600)%Z ->
        _make_request serve self method url data w =
          (Raise (HTTPError status_code),
           with_log w' ERROR (RequestFailed (HTTPError status_code))))
  /\ (forall body,
        serve req (remote w) = (Response 204 body, remote') ->
        _make_request serve self method url data w = (Return (VDict ∅), w'))
  /\ (forall status_code v,
        serve req (remote w) = (Response status_code (Some v), remote') ->
        has_body status_code ->
        _make_request serve self method url data w = (Return v, w'))
  /\ (forall status_code,
        serve req (remote w) = (Response status_code None, remote') ->
        has_body status_code ->
        _make_request serve self method url data w =
          (Raise JSONDecodeError,
           with_log w' ERROR (RequestFailed JSONDecodeError))).
Proof.
  intros req w'. unfold _make_request, bind, send, log_response. fold req.
  split; [|split; [|split; [|split; [|split; [|split]]]]].
  - by intros msg ->.
  - intros msg status_code text -> [Hlow Hhigh].
    apply Z.leb_le in Hlow. apply Z.ltb_lt in Hhigh. simpl.
    by rewrite Hlow, Hhigh.
  - intros msg status_code text -> Hok. simpl.
    assert (E : ((400 <=? status_code) && (status_code <? 600))%Z = false).
    { apply andb_false_iff.
      destruct Hok; [left; apply Z.leb_gt|right; apply Z.ltb_ge]; lia. }
    by rewrite E.
  - intros status_code body -> [Hlow Hhigh].
    apply Z.leb_le in Hlow. apply Z.ltb_lt in Hhigh.
    by rewrite Hlow, Hhigh.
  - by intros body ->.
  - intros status_code v -> [Hok Hcontent]. rewrite Hok.
    by destruct (Z.eqb_spec status_code 204).
  - intros status_code -> [Hok Hcontent]. rewrite Hok.
    by destruct (Z.eqb_spec status_code 204).
Qed.

Lemma make_request_logged self method url data (w : @world server) :
  exists records,
    logged (_make_request serve self method url data w).2 =
    (logged w ++ records)%list.
Proof.
  unfold _make_request, bind, send.
  destruct (serve _ (remote w)) as [[msg carried|status_code body] remote'].
  - destruct carried as [[status_code text]|]; [|by eexists [_]].
    unfold log_response. simpl.
    destruct (_ && _); [by eexists [_]|]. simpl. eexists [_; _; _].
    by rewrite <- !app_assoc.
  - destruct (_ && _); [by eexists [_]|].
    destruct (_ =? _)%Z; [exists []; simpl; by rewrite app_nil_r|].
    destruct body; [exists []; simpl; by rewrite app_nil_r|by eexists [_]].
Qed.

(** [list_users] without a filter, or with the empty string as filter,
    sends one GET to the bare endpoint.  From a JSON object it returns the
    Resources, or the empty list when there are none; any other JSON
    document raises AttributeError, which is not logged. *)
Theorem list_users_unfiltered self (w : @world server) :
  list_users serve self (Some EmptyString) w = list_users serve self None w
  /\ sent (list_users serve self None w).2 =
       (sent w ++ [{| method := "GET"; url := scim_endpoint self;
                      headers := client_headers self; json := None |}])%list
  /\ (forall status_code v remote',
        serve {| method := "GET"; url := scim_endpoint self;
                 headers := client_headers self; json := None |} (remote w)
          = (Response status_code (Some v), remote') ->
        has_body status_code ->
        (list_users serve self None w).1 =
          match v with
          | VDict d =>
              Return match d !! "Resources" with
                     | Some resources => resources
                     | None => VList []
                     end
          | _ => Raise AttributeError
          end
        /\ logged (list_users serve self None w).2 = logged w).
Proof.
  split; [reflexivity|]. unfold list_users, bind. split.
  - pose proof (make_request_sent serve self "GET" (scim_endpoint self) None w)
      as Hsent.
    destruct (_make_request _ _ _ _ _ w) as [[response|e] w1]; [|done].
    by destruct response.
  - intros status_code v remote' Hserve Hstatus.
    rewrite (make_request_body serve self "GET" (scim_endpoint self) None w
               status_code v remote' Hserve Hstatus).
    by destruct v.
Qed.

Lemma create_user_named self user_data username (w : @world server) :
  user_data !! "userName" = Some username ->
  create_user serve self user_data w =
  _make_request serve self "POST" (scim_endpoint self) (Some user_data)
    (with_log
       (with_log (with_log w INFO (CreatingUser username)) INFO
          (UserData user_data))
       INFO (ScimEndpoint (scim_endpoint self))).
Proof. intros H. unfold create_user. by rewrite H. Qed.

(** [create_user] reads the userName of the record before anything else: a
    record without one raises KeyError, and nothing is logged or sent.
    Otherwise three info records are logged and the record is sent once, as
    the JSON body of a POST to the endpoint. *)
Theorem create_user_outcomes self user_data (w : @world server) :
  (user_data !! "userName" = None ->
   create_user serve self user_data w = (Raise KeyError, w))
  /\ (forall username,
        user_data !! "userName" = Some username ->
        sent (create_user serve self user_data w).2 =
          (sent w ++ [create_request self user_data])%list
        /\ exists records,
             logged (create_user serve self user_data w).2 =
               (logged w ++
                [(INFO, CreatingUser username); (INFO, UserData user_data);
                 (INFO, ScimEndpoint (scim_endpoint self))] ++ records)%list).
Proof.
  split; [unfold create_user; by intros ->|].
  intros username Hname. rewrite (create_user_named _ _ username w Hname).
  split; [by rewrite make_request_sent|].
  destruct (make_request_logged self "POST" (scim_endpoint self)
              (Some user_data)
              (with_log
                 (with_log (with_log w INFO (CreatingUser username)) INFO
                    (UserData user_data))
                 INFO (ScimEndpoint (scim_endpoint self))))
    as [records Hrecords].
  exists records. rewrite Hrecords. unfold with_log. cbn [logged].
  by rewrite <- !app_assoc.
Qed.

(** *** Where the requests go *)

Lemma addressed_to_endpoint self method rest data :
  addressed_to self
    {| method := method; url := scim_endpoint self ++ rest;
       headers := client_headers self; json := data |}.
Proof. split; [done|]. by exists rest. Qed.

Lemma addressed_to_bare_endpoint self method data :
  addressed_to self
    {| method := method; url := scim_endpoint self;
       headers := client_headers self; json := data |}.
Proof.
  split; [done|]. exists EmptyString. cbn [url].
  by rewrite append_empty_r.
Qed.

Lemma addressed_list_users self filter_str :
  sends_only (addressed_to self) (list_users serve self filter_str).
Proof.
  unfold list_users. apply sends_only_bind.
  - apply sends_only_make_request.
    destruct filter_str as [[|a f]|];
      [apply addressed_to_bare_endpoint|apply addressed_to_endpoint
      |apply addressed_to_bare_endpoint].
  - intros response.
    destruct response; first [apply sends_only_ret|apply sends_only_raise].
Qed.

Lemma addressed_get_user self username :
  sends_only (addressed_to self) (get_user serve repr self username).
Proof.
  unfold get_user. apply sends_only_bind; [apply addressed_list_users|].
  intros users. destruct (truthy users); [|apply sends_only_ret].
  unfold first_item.
  destruct users as [| | |[|]|[|]|];
    first [apply sends_only_ret|apply sends_only_raise].
Qed.

Lemma addressed_create_user self user_data :
  sends_only (addressed_to self) (create_user serve self user_data).
Proof.
  unfold create_user.
  destruct (user_data !! "userName"); [|apply sends_only_raise].
  repeat (apply sends_only_bind; [apply sends_only_log|intros _]).
  apply sends_only_make_request, addressed_to_bare_endpoint.
Qed.

Lemma addressed_process_user self user_data :
  sends_only (addressed_to self) (process_user serve repr self user_data).
Proof.
  unfold process_user. destruct (negb _); [apply sends_only_log|].
  apply sends_only_try_except; [|intros e; apply sends_only_log].
  apply sends_only_bind; [apply addressed_get_user|].
  intros existing_user.
  destruct (truthy existing_user); [apply sends_only_log|].
  apply sends_only_bind; [apply addressed_create_user|].
  intros created_user. apply sends_only_bind; [|intros id; apply sends_only_log].
  unfold get_id.
  destruct created_user; first [apply sends_only_ret|apply sends_only_raise].
Qed.

Lemma addressed_process_users self users :
  sends_only (addressed_to self) (process_users serve repr self users).
Proof.
  induction users as [|user_data users IH]; cbn [process_users].
  - apply sends_only_ret.
  - apply sends_only_bind; [apply addressed_process_user|by intros _].
Qed.

(** Every request of the client and of the loop goes to the Users endpoint
    of the client or to a URL that extends it, and carries the headers of
    the client, the bearer token among them. *)
Theorem requests_go_to_the_endpoint self :
  (forall filter_str,
     sends_only (addressed_to self) (list_users serve self filter_str))
  /\ (forall username,
        sends_only (addressed_to self) (get_user serve repr self username))
  /\ (forall user_id,
        sends_only (addressed_to self) (get_user_by_id serve self user_id))
  /\ (forall user_data,
        sends_only (addressed_to self) (create_user serve self user_data))
  /\ (forall users,
        sends_only (addressed_to self)
          (process_users serve repr self users)).
Proof.
  split; [apply addressed_list_users|].
  split; [apply addressed_get_user|].
  split; [|split; [apply addressed_create_user|apply addressed_process_users]].
  intros user_id. apply sends_only_make_request, addressed_to_endpoint.
Qed.

End ClientOutcomes.

(** ** More about the script *)

(** [format_user_for_scim] reads userName, displayName, emails and roles
    and nothing else: another column of the file, present or changed, makes
    no difference to the provisioning record; and the externalId is always
    the userName of the record. *)
Theorem format_user_for_scim_ignores_other_fields (user_data : dict) :
  (forall k v,
     k ∉ ["userName"; "displayName"; "emails"; "roles"] ->
     format_user_for_scim (<[k := v]> user_data)
       = format_user_for_scim user_data
     /\ format_user_for_scim (delete k user_data)
          = format_user_for_scim user_data)
  /\ format_user_for_scim user_data !! "externalId"
       = format_user_for_scim user_data !! "userName".
Proof.
  split.
  - intros k v Hk.
    split; apply format_user_for_scim_reads; intros k' Hk';
      [apply lookup_insert_ne|apply lookup_delete_ne]; by intros ->.
  - by rewrite format_user_for_scim_external_id,
      format_user_for_scim_username.
Qed.

Section ScriptOutcomes.

Context {server : Type}.
Variable serve : request -> server -> http_result * server.
Variable disk : string -> file.
Variable repr : value -> string.

(** What one turn of the loop sends. *)
Lemma process_user_requests self user_data (w : @world server) :
  exists requests,
    row_requests repr self user_data requests
    /\ sent (process_user serve repr self user_data w).2 =
         (sent w ++ requests)%list.
Proof.
  unfold row_requests.
  destruct (truthy (dict_get user_data "userName")) eqn:Hname.
  - pose proof (get_user_sent serve repr self
                  (dict_get user_data "userName") w) as Hsent.
    unfold process_user. rewrite Hname. cbn [negb].
    unfold try_except, bind.
    destruct (get_user _ _ _ _ w) as [[existing_user|e] w1];
      simpl in Hsent; [|by eexists; split; [left|]].
    destruct (truthy existing_user); [by eexists; split; [left|]|].
    pose proof (create_user_sent serve self user_data w1) as Hcreate.
    eexists. split; [by right|].
    destruct (create_user _ _ _ w1) as [[created_user|e] w2];
      simpl in Hcreate.
    + destruct created_user; simpl; by rewrite Hcreate, Hsent, <- app_assoc.
    + simpl. by rewrite Hcreate, Hsent, <- app_assoc.
  - exists []. split; [done|].
    rewrite (process_user_falsy serve repr self user_data w Hname).
    simpl. by rewrite app_nil_r.
Qed.

(** [process_users] never raises: whatever the server answers, and
    whatever the rows hold, every exception of a row ends in the handler of
    that row. *)
Theorem process_users_never_raises self users (w : @world server) :
  (process_users serve repr self users w).1 = Return tt
  /\ (forall user_data,
        (process_user serve repr self user_data w).1 = Return tt).
Proof.
  split; [apply process_users_returns|].
  intros user_data. apply process_user_returns.
Qed.

(** A batch in two parts: processing the whole batch is processing the
    first part and then the second in the world the first part left. *)
Theorem process_users_app self users1 users2 (w : @world server) :
  process_users serve repr self (users1 ++ users2)%list w =
  process_users serve repr self users2
    (process_users serve repr self users1 w).2.
Proof.
  revert w. induction users1 as [|user_data users1 IH]; intros w; [done|].
  change ((user_data :: users1) ++ users2)%list
    with (user_data :: (users1 ++ users2)%list).
  by rewrite !process_users_cons, IH.
Qed.

(** The requests of a batch, row by row and in the order of the rows: a
    row without a userName sends nothing, any other row sends its lookup,
    alone or followed at once by the create of that same row. *)
Theorem process_users_requests_by_row self users (w : @world server) :
  exists blocks,
    Forall2 (row_requests repr self) users blocks
    /\ sent (process_users serve repr self users w).2 =
         (sent w ++ concat blocks)%list.
Proof.
  revert w. induction users as [|user_data users IH]; intros w.
  - exists []. split; [constructor|]. simpl. by rewrite app_nil_r.
  - rewrite process_users_cons.
    destruct (process_user_requests self user_data w)
      as (requests & Hrow & Hsent).
    destruct (IH (process_user serve repr self user_data w).2)
      as (blocks & Hrows & Hrest).
    exists (requests :: blocks). split; [by constructor|].
    rewrite Hrest, Hsent. simpl. by rewrite app_assoc.
Qed.

(** No retry and no second page: a batch sends exactly one GET for every
    row that has a userName, and at most one POST for it. *)
Theorem process_users_request_counts self users (w : @world server) :
  exists new,
    sent (process_users serve repr self users w).2 = (sent w ++ new)%list
    /\ length (filter (fun req => method req = "GET") new) =
         length (filter (fun user_data =>
                           truthy (dict_get user_data "userName") = true)
                        users)
    /\ length (filter (fun req => method req = "POST") new) <=
         length (filter (fun user_data =>
                           truthy (dict_get user_data "userName") = true)
                        users).
Proof.
  revert w. induction users as [|user_data users IH]; intros w.
  - exists []. split; [simpl; by rewrite app_nil_r|]. by split.
  - rewrite process_users_cons.
    destruct (process_user_requests self user_data w)
      as (requests & Hrow & Hsent).
    destruct (IH (process_user serve repr self user_data w).2)
      as (new & Hnew & Hget & Hpost).
    exists (requests ++ new)%list.
    split; [by rewrite Hnew, Hsent, app_assoc|].
    rewrite !filter_app, !length_app, Hget, filter_cons.
    unfold row_requests in Hrow.
    destruct (truthy (dict_get user_data "userName")).
    + rewrite decide_True by done. cbn [length].
      destruct Hrow as [-> | ->]; split.
      * done.
      * change (0 + length (filter (λ req, method req = "POST") new)
                <= S (length (filter
                   (λ user_data, truthy (dict_get user_data "userName") = true)
                   users))). lia.
      * done.
      * change (1 + length (filter (λ req, method req = "POST") new)
                <= S (length (filter
                   (λ user_data, truthy (dict_get user_data "userName") = true)
                   users))). lia.
    + rewrite decide_False by done. by subst requests.
Qed.

(** [main] without a batch: when the file is missing or cannot be read it
    logs the error and exits with status 1, and when the file has no row it
    logs a warning and returns; in all three cases nothing is sent. *)
Theorem main_without_rows csv url token (w : @world server) :
  (disk csv = Missing ->
   main serve disk repr csv url token w =
     (Return (SysExit 1),
      with_log w ERROR (AnErrorOccurred (FileNotFoundError csv))))
  /\ (forall e, disk csv = Unreadable e ->
        main serve disk repr csv url token w =
          (Return (SysExit 1),
           with_log (with_log w ERROR (ErrorReadingCsv e)) ERROR
             (AnErrorOccurred e)))
  /\ (disk csv = Csv [] ->
        main serve disk repr csv url token w =
          (Return Returned, with_log w WARNING NoUsersFound)).
Proof.
  unfold main, try_except, bind at 1, read_csv_file.
  split; [|split].
  - by intros ->.
  - by intros e ->.
  - by intros ->.
Qed.

(** [main] with a batch: the rows go to [process_users] with the client
    made from the URL and the token, and whatever happened to the rows the
    run ends with the success record and returns. *)
Theorem main_with_rows csv url token reader (w : @world server) :
  disk csv = Csv reader ->
  reader <> [] ->
  exists users,
    read_csv_file disk csv w = (Return users, w)
    /\ length users = length reader
    /\ main serve disk repr csv url token w =
         (Return Returned,
          with_log
            (process_users serve repr (new_client url token) users w).2
            INFO SuccessfullyCompleted).
Proof.
  intros Hfile Hrows.
  destruct (read_csv_file_rows disk csv reader w Hfile) as (users & Hr & Hc).
  pose proof (convert_rows_length reader users Hc) as Hlen.
  exists users. split; [done|]. split; [done|].
  unfold main, try_except, bind at 1. rewrite Hr.
  destruct users as [|user_data users]; [by destruct reader|].
  unfold bind.
  pose proof (process_users_returns serve repr (new_client url token)
                (user_data :: users) w) as Hret.
  by destruct (process_users _ _ _ _ w) as [[[]|e] w1].
Qed.

(** [main] never raises, and it exits with status 1 exactly when the file
    is missing or cannot be read: no answer of the server changes how the
    run ends. *)
Theorem main_exit_status csv url token (w : @world server) :
  ((main serve disk repr csv url token w).1 = Return (SysExit 1)
   \/ (main serve disk repr csv url token w).1 = Return Returned)
  /\ ((main serve disk repr csv url token w).1 = Return (SysExit 1)
      <-> disk csv = Missing \/ exists e, disk csv = Unreadable e).
Proof.
  rewrite main_exit. destruct (disk csv) as [|e|reader].
  - split; [by left|]. split; [by left|done].
  - split; [by left|]. split; [by right; eauto|done].
  - split; [by right|]. split; [done|]. by intros [|[e ?]].
Qed.

(** Every request of a run goes to the Users endpoint under the URL of the
    command line, trailing slashes removed, with the token of the command
    line as bearer token. *)
Theorem main_requests_go_to_the_endpoint csv url token :
  sends_only (addressed_to (new_client url token))
    (main serve disk repr csv url token).
Proof.
  unfold main. apply sends_only_try_except.
  - apply sends_only_bind.
    + unfold read_csv_file. destruct (disk csv) as [|e|reader].
      * apply sends_only_raise.
      * apply sends_only_bind; [apply sends_only_log|intros _].
        apply sends_only_raise.
      * destruct (convert_rows reader); [apply sends_only_ret|].
        apply sends_only_bind; [apply sends_only_log|intros _].
        apply sends_only_raise.
    + intros [|user_data users].
      * apply sends_only_bind; [apply sends_only_log|intros _].
        apply sends_only_ret.
      * apply sends_only_bind; [apply addressed_process_users|intros _].
        apply sends_only_bind; [apply sends_only_log|intros _].
        apply sends_only_ret.
  - intros e. apply sends_only_bind; [apply sends_only_log|intros _].
    apply sends_only_ret.
Qed.

End ScriptOutcomes.

(** ** The further properties at work *)

Lemma new_client_trailing_slashes_ghe :
  new_client ("https://ghe.example" ++ "/") "secret"
    = new_client "https://ghe.example" "secret"
  /\ base_url (new_client "https://ghe.example//" "secret")
       <> "https://ghe.example" ++ "/".
Proof.
  split.
  - apply (proj1 (new_client_trailing_slashes "https://ghe.example"
                    "secret")).
  - apply (proj1 (proj2 (new_client_trailing_slashes
                           "https://ghe.example//" "secret"))).
Defined.

Lemma read_csv_file_failures_sample :
  read_csv_file sample_disk "nowhere.csv" (Mock.start tt)
    = (Raise (FileNotFoundError "nowhere.csv"), Mock.start tt)
  /\ read_csv_file sample_disk "latin1.csv" (Mock.start tt)
       = (Raise UnicodeDecodeError,
          with_log (Mock.start tt) ERROR (ErrorReadingCsv UnicodeDecodeError))
  /\ exists users,
       read_csv_file sample_disk "header.csv" (Mock.start tt)
         = (Return users, Mock.start tt)
       /\ length users = length (@nil raw_row).
Proof.
  split; [|split].
  - apply (read_csv_file_failures sample_disk "nowhere.csv" (Mock.start tt)).
    reflexivity.
  - apply (read_csv_file_failures sample_disk "latin1.csv" (Mock.start tt)).
    reflexivity.
  - apply (read_csv_file_failures sample_disk "header.csv" (Mock.start tt)).
    reflexivity.
Defined.

Lemma read_csv_file_keeps_other_cells_bob :
  exists users row,
    read_csv_file Mock.disk "users.csv" (Mock.start tt)
      = (Return users, Mock.start tt)
    /\ users !! 1%nat = Some row
    /\ dom row = dom Mock.bob
    /\ forall k, k <> "emails" -> k <> "roles" ->
                 row !! k = cell_value <$> Mock.bob !! k.
Proof.
  apply (read_csv_file_keeps_other_cells Mock.disk "users.csv"
           [Mock.alice; Mock.bob] 1 Mock.bob (Mock.start tt)).
  - reflexivity.
  - reflexivity.
Defined.

(** dave has an empty emails cell and a line too short for a role: the
    record carries the empty string as emails and None as role. *)
Lemma empty_cells_are_not_defaulted_dave :
  exists users row,
    read_csv_file sample_disk "short.csv" (Mock.start tt)
      = (Return users, Mock.start tt)
    /\ users !! 0%nat = Some row
    /\ format_user_for_scim row !! "emails" = Some (VStr EmptyString)
    /\ format_user_for_scim row !! "roles" =
         Some (VList [VDict {[ "value" := VNone;
                               "primary" := VBool true ]}]).
Proof.
  destruct (empty_cells_are_not_defaulted sample_disk "short.csv"
              [{[ "userName" := Some "dave"; "emails" := Some EmptyString;
                  "roles" := None ]}] 0
              {[ "userName" := Some "dave"; "emails" := Some EmptyString;
                 "roles" := None ]} (Mock.start tt))
    as (users & row & Hread & Hrow & Hemails & _ & Hroles & _).
  - reflexivity.
  - reflexivity.
  - exists users, row. split; [exact Hread|]. split; [exact Hrow|]. split.
    + apply (Hemails (Some EmptyString)); [vm_compute; reflexivity|].
      right. reflexivity.
    + apply (Hroles None); [vm_compute; reflexivity|]. left. reflexivity.
Defined.


Lemma username_is_used_verbatim_alice :
  exists users row,
    read_csv_file Mock.disk "users.csv" (Mock.start tt)
      = (Return users, Mock.start tt)
    /\ users !! 0%nat = Some row
    /\ url <$> sent (get_user Mock.unreachable Mock.no_repr Mock.ghe
                       (dict_get row "userName") (Mock.start tt)).2 =
         ["https://ghe.example/scim/v2/enterprises/"
          ++ "xfusion-digital-technologies/Users?filter=userName eq "
          ++ String (ascii_of_nat 34) EmptyString ++ "alice"
          ++ String (ascii_of_nat 34) EmptyString]
    /\ format_user_for_scim row !! "userName" = Some (VStr "alice")
    /\ format_user_for_scim row !! "externalId" = Some (VStr "alice").
Proof.
  destruct (username_is_used_verbatim Mock.disk "users.csv"
              [Mock.alice; Mock.bob] 0 Mock.alice "alice" (Mock.start tt))
    as (users & row & Hread & Hrow & _ & Hlookup & Hname & Hid).
  - reflexivity.
  - reflexivity.
  - vm_compute. reflexivity.
  - exists users, row. split; [exact Hread|]. split; [exact Hrow|].
    split; [|split; [exact Hname|exact Hid]].
    rewrite (Hlookup Mock.unreachable Mock.no_repr Mock.ghe (Mock.start tt)).
    reflexivity.
Defined.

(** The unreachable server gives one record; the redirecting one gives
    three, the status and the text of the last redirect among them. *)
Lemma make_request_outcomes_unreachable :
  _make_request Mock.unreachable Mock.ghe "GET" (scim_endpoint Mock.ghe)
    None (Mock.start tt) =
  (Raise (RequestException "connection refused"),
   {| remote := tt;
      sent := [{| method := "GET"; url := scim_endpoint Mock.ghe;
                  headers := client_headers Mock.ghe; json := None |}];
      logged := [(ERROR, RequestFailed
                           (RequestException "connection refused"))] |})
  /\ _make_request redirecting Mock.ghe "GET" (scim_endpoint Mock.ghe)
       None (Mock.start tt) =
     (Raise (RequestException "Exceeded 30 redirects."),
      {| remote := tt;
         sent := [{| method := "GET"; url := scim_endpoint Mock.ghe;
                     headers := client_headers Mock.ghe; json := None |}];
         logged := [(ERROR, RequestFailed
                              (RequestException "Exceeded 30 redirects."));
                    (ERROR, ResponseStatus 302);
                    (ERROR, ResponseBody "Found")] |}).
Proof.
  split.
  - apply (proj1 (make_request_outcomes Mock.unreachable Mock.ghe "GET"
                    (scim_endpoint Mock.ghe) None (Mock.start tt) tt)).
    reflexivity.
  - apply (proj1 (proj2 (proj2
             (make_request_outcomes redirecting Mock.ghe "GET"
                (scim_endpoint Mock.ghe) None (Mock.start tt) tt)))).
    + reflexivity.
    + left. reflexivity.
Defined.

Lemma list_users_unfiltered_array :
  (list_users array_server Mock.ghe None (Mock.start tt)).1
    = Raise AttributeError
  /\ logged (list_users array_server Mock.ghe None (Mock.start tt)).2 = [].
Proof.
  destruct (list_users_unfiltered array_server Mock.ghe (Mock.start tt))
    as (_ & _ & Hanswer).
  apply (Hanswer 200%Z (VList []) tt).
  - reflexivity.
  - split; [reflexivity|discriminate].
Defined.

Lemma create_user_outcomes_no_username :
  create_user Mock.directory Mock.ghe
    {[ "displayName" := VStr "Nobody" ]} (Mock.start [])
  = (Raise KeyError, Mock.start []).
Proof.
  apply (proj1 (create_user_outcomes Mock.directory Mock.ghe
                  {[ "displayName" := VStr "Nobody" ]} (Mock.start []))).
  vm_compute. reflexivity.
Defined.

Lemma format_user_for_scim_ignores_department :
  format_user_for_scim (<["department" := VStr "R&D"]> Mock.alice_user)
    = format_user_for_scim Mock.alice_user
  /\ format_user_for_scim (delete "department" Mock.alice_user)
       = format_user_for_scim Mock.alice_user.
Proof.
  apply (proj1 (format_user_for_scim_ignores_other_fields Mock.alice_user)
           "department" (VStr "R&D")).
  apply (bool_decide_unpack _). vm_compute. exact I.
Defined.

Lemma main_without_rows_sample :
  main Mock.directory sample_disk Mock.no_repr "nowhere.csv"
    "https://ghe.example/" "secret" (Mock.start [])
  = (Return (SysExit 1),
     with_log (Mock.start []) ERROR
       (AnErrorOccurred (FileNotFoundError "nowhere.csv")))
  /\ main Mock.directory sample_disk Mock.no_repr "latin1.csv"
       "https://ghe.example/" "secret" (Mock.start [])
     = (Return (SysExit 1),
        with_log
          (with_log (Mock.start []) ERROR (ErrorReadingCsv UnicodeDecodeError))
          ERROR (AnErrorOccurred UnicodeDecodeError))
  /\ main Mock.directory sample_disk Mock.no_repr "header.csv"
       "https://ghe.example/" "secret" (Mock.start [])
     = (Return Returned, with_log (Mock.start []) WARNING NoUsersFound).
Proof.
  split; [|split].
  - apply (main_without_rows Mock.directory sample_disk Mock.no_repr
             "nowhere.csv" "https://ghe.example/" "secret" (Mock.start [])).
    reflexivity.
  - apply (main_without_rows Mock.directory sample_disk Mock.no_repr
             "latin1.csv" "https://ghe.example/" "secret" (Mock.start [])).
    reflexivity.
  - apply (main_without_rows Mock.directory sample_disk Mock.no_repr
             "header.csv" "https://ghe.example/" "secret" (Mock.start [])).
    reflexivity.
Defined.

Lemma main_with_rows_unreachable :
  exists users,
    read_csv_file Mock.disk "users.csv" (Mock.start tt)
      = (Return users, Mock.start tt)
    /\ length users = length [Mock.alice; Mock.bob]
    /\ main Mock.unreachable Mock.disk Mock.no_repr "users.csv"
         "https://ghe.example/" "secret" (Mock.start tt) =
       (Return Returned,
        with_log
          (process_users Mock.unreachable Mock.no_repr
             (new_client "https://ghe.example/" "secret") users
             (Mock.start tt)).2
          INFO SuccessfullyCompleted).
Proof.
  apply (main_with_rows Mock.unreachable Mock.disk Mock.no_repr "users.csv"
           "https://ghe.example/" "secret" [Mock.alice; Mock.bob]
           (Mock.start tt)).
  - reflexivity.
  - discriminate.
Defined.

Lemma main_exit_status_latin1 :
  (main Mock.directory sample_disk Mock.no_repr "latin1.csv"
     "https://ghe.example/" "secret" (Mock.start [])).1
  = Return (SysExit 1).
Proof.
  apply (proj2 (main_exit_status Mock.directory sample_disk Mock.no_repr
                  "latin1.csv" "https://ghe.example/" "secret"
                  (Mock.start []))).
  right. exists UnicodeDecodeError. reflexivity.
Defined.
